(** * Gemma chat: the model service (api.py) and the terminal client (chat.py)

    A shallow embedding of the request orchestration of the service and of
    the read-eval-print loop of the client, with the properties of the
    conversational protocol (roles, turn order, history truncation, error
    reporting) stated over it.

    Conventions.
    - The tokenizer and the language model are external objects: they are
      records of functions, and every theorem about the service quantifies
      over them.
    - A token tensor of shape [1, n] is the list of its n token ids.
    - Python exceptions are values; code that may raise lives in the monad
      [M], which threads the server log and stops at the first exception.
    - [print] and [logger] texts are f-strings: lists of literal pieces and
      of formatted values.
    - Strings are UTF-8 byte strings; [len] counts code points.  [strip]
      and [lower] are the ASCII parts of Python's methods: they agree
      with Python on text made of ASCII characters ([ascii_text]), and
      properties that need this agreement say so. *)

From Stdlib Require Import String Ascii List ZArith QArith Bool Arith Lia.
From ExtLib Require Import Structures.Monad.
Import ListNotations.
Import MonadNotation.

Local Open Scope string_scope.
Local Open Scope list_scope.
Local Open Scope Z_scope.
Local Open Scope monad_scope.

(** ** Values shared by both programs *)

(** One entry of a conversation: [class Message] of api.py, and the
    [{"role": ..., "content": ...}] dictionaries both programs build. *)
Record Message : Type := { role : string; content : string }.

(** Values decoded from a JSON body.  An object keeps its members in
    order, as a Python dict does. *)
#[warnings="-register-all"]
Inductive json : Type :=
| JNull
| JBool (b : bool)
| JInt (z : Z)
| JFloat (q : Q)
| JStr (s : string)
| JList (items : list json)
| JObj (members : list (string * json)).

(** [d.get(key, default)] on a dict. *)
Fixpoint dict_get (members : list (string * json)) (key : string) (default : json) : json :=
  match members with
  | [] => default
  | (k, v) :: rest => if String.eqb k key then v else dict_get rest key default
  end.

(** [l[-k:]] for a positive [k]: the last [k] items, or all of [l] when it
    is shorter (the start index [len(l) - k] is clamped at 0). *)
Definition slice_last {A : Type} (k : nat) (l : list A) : list A :=
  skipn (length l - k) l.

(** [sep.join(parts)] *)
Fixpoint str_join (sep : string) (parts : list string) : string :=
  match parts with
  | [] => ""
  | [p] => p
  | p :: rest => p ++ sep ++ str_join sep rest
  end.

(** [s * n] *)
Fixpoint str_repeat (s : string) (n : nat) : string :=
  match n with
  | O => ""
  | S n' => s ++ str_repeat s n'
  end.

(** [len(s)]: the code points of [s], that is its bytes other than the
    continuation bytes 10xxxxxx. *)
Fixpoint code_points (s : string) : nat :=
  match s with
  | EmptyString => O
  | String c rest =>
      let n := nat_of_ascii c in
      if ((128 <=? n) && (n <? 192))%nat then code_points rest else S (code_points rest)
  end.

(** Text made of ASCII characters only. *)
Fixpoint ascii_text (s : string) : bool :=
  match s with
  | EmptyString => true
  | String c rest => (nat_of_ascii c <? 128)%nat && ascii_text rest
  end.

Definition newline : string := String (ascii_of_nat 10) "".
Definition carriage_return : string := String (ascii_of_nat 13) "".

(** ** The model service: api.py *)

Module Api.

(** An exception raised by the tokenizer, the model or tensor code;
    [str(e)] is its message. *)
Record PyError : Type := { str_of_error : string }.

(** What a request handler can raise: a library exception, or FastAPI's
    [HTTPException(status_code, detail)]. *)
Inductive Exn : Type :=
| Error (e : PyError)
| HTTPException (status_code : Z) (detail : string).

(** Pieces of a formatted log message. *)
Inductive Part : Type :=
| Text (s : string)
| Int (z : Z)
| Shape (dims : list nat)          (* a torch.Size *)
| ErrorText (e : PyError)          (* {e} *)
| ExnText (e : Exn)                (* {e} in the middleware *)
| Traceback (e : PyError).         (* traceback.format_exc() *)

Inductive Level : Type := DEBUG | INFO | ERROR | CRITICAL.

Record LogRecord : Type := { level : Level; msg : list Part }.

Definition Log : Type := list LogRecord.

(** Computations that write to the log and may raise an [E]. *)
Definition M (E A : Type) : Type := Log -> (E + A) * Log.

#[global] Instance Monad_M {E : Type} : Monad (M E) :=
  {| ret := fun _ a log => (inr a, log);
     bind := fun _ _ c k log =>
               match c log with
               | (inl e, log1) => (inl e, log1)
               | (inr a, log1) => k a log1
               end |}.

Definition raise {E A : Type} (e : E) : M E A := fun log => (inl e, log).

(** [try: body  except Exception as e: handler(e)] *)
Definition try_except {E1 E2 A : Type} (body : M E1 A) (handler : E1 -> M E2 A) : M E2 A :=
  fun log =>
    match body log with
    | (inl e, log1) => handler e log1
    | (inr a, log1) => (inr a, log1)
    end.

(** A call into the tokenizer or the model. *)
Definition call {A : Type} (r : PyError + A) : M PyError A := fun log => (r, log).

Definition logger {E : Type} (lv : Level) (m : list Part) : M E unit :=
  fun log => (inr tt, log ++ [{| level := lv; msg := m |}]).

(** *** Data models *)

Record ChatRequest : Type := {
  message : string;
  history : list Message;
  max_length : Z;
  temperature : Q
}.

(** The JSON body of POST /chat before validation: [message] is
    required, the other fields are optional. *)
Record RequestBody : Type := {
  body_message : string;
  body_history : option (list Message);
  body_max_length : option Z;
  body_temperature : option Q
}.

(** Validation against [class ChatRequest]: a missing field takes the
    default the class declares. *)
Definition validate (b : RequestBody) : ChatRequest :=
  {| message := body_message b;
     history := match body_history b with Some h => h | None => [] end;
     max_length := match body_max_length b with Some n => n | None => 200 end;
     temperature := match body_temperature b with Some t => t | None => (7 # 10)%Q end |}.

(** *** The tokenizer and the model *)

Definition Tensor : Type := list Z.

(** What [apply_chat_template(..., return_tensors="pt")] returns: a
    mapping with an [input_ids] entry, or the tensor itself. *)
Inductive TemplateOutput : Type :=
| Encoding (input_ids : Tensor)
| Plain (t : Tensor).

Record Tokenizer : Type := {
  (* None: the object has no apply_chat_template attribute.
     Called with add_generation_prompt=True. *)
  apply_chat_template : option (list Message -> PyError + TemplateOutput);
  encode : string -> PyError + Tensor;
  (* called with skip_special_tokens=True *)
  decode : Tensor -> PyError + string;
  pad_token_id : option Z;
  eos_token_id : option Z
}.

Record Model : Type := {
  (* generate(input_ids, attention_mask, max_new_tokens, temperature,
     pad_token_id) with do_sample=True; the result is outputs[0] *)
  generate : Tensor -> Tensor -> Z -> Q -> option Z -> PyError + Tensor
}.

(** *** POST /chat *)

(** Step 1 of [chat]: the loop over [request.history], then the append
    of the latest user message. *)
Definition build_messages (request : ChatRequest) : list Message :=
  let messages :=
    fold_left
      (fun messages msg => messages ++ [{| role := role msg; content := content msg |}])
      (history request) [] in
  messages ++ [{| role := "user"; content := message request |}].

Definition input_ids_of (input_data : TemplateOutput) : Tensor :=
  match input_data with
  | Encoding input_ids => input_ids
  | Plain t => t
  end.

(** The plain transcript of the fallback branch. *)
Definition context_of (messages : list Message) : string :=
  str_join newline (map (fun m => (role m ++ ": " ++ content m)%string) messages).

(** Step 2 of [chat]: the chat template when the tokenizer has one, the
    encoded transcript otherwise.  Moving a tensor to the device keeps
    its contents. *)
Definition tokenize (tokenizer : Tokenizer) (messages : list Message) : M PyError Tensor :=
  match apply_chat_template tokenizer with
  | Some template =>
      logger DEBUG [Text "Applying chat template with ";
                    Int (Z.of_nat (length messages)); Text " messages..."] ;;
      input_data <- call (template messages) ;;
      ret (input_ids_of input_data)
  | None =>
      logger DEBUG [Text "Encoding raw text (Template not found)..."] ;;
      call (encode tokenizer (context_of messages))
  end.

(** [t != x] on a tensor and a number, elementwise. *)
Definition tensor_ne (t : Tensor) (x : Z) : list bool :=
  map (fun v => negb (Z.eqb v x)) t.

(** [.long()] on a boolean tensor. *)
Definition long (t : list bool) : Tensor :=
  map (fun b : bool => if b then 1 else 0) t.

(** [(input_ids != tokenizer.pad_token_id).long()].  Against [None] the
    comparison is not elementwise: it is the Python value [True], which
    has no [long] method. *)
Definition attention_mask_of (input_ids : Tensor) (pad : option Z) : PyError + Tensor :=
  match pad with
  | Some p => inr (long (tensor_ne input_ids p))
  | None => inl {| str_of_error := "'bool' object has no attribute 'long'" |}
  end.

(** The body of the [try] block of [chat]. *)
Definition chat_body (tokenizer : Tokenizer) (model : Model) (request : ChatRequest)
  : M PyError json :=
  let messages := build_messages request in
  input_ids <- tokenize tokenizer messages ;;
  logger DEBUG [Text "Input tensor shape: "; Shape [1%nat; length input_ids]] ;;
  logger DEBUG [Text "Generating response..."] ;;
  attention_mask <- call (attention_mask_of input_ids (pad_token_id tokenizer)) ;;
  outputs <- call (generate model input_ids attention_mask (max_length request)
                     (temperature request) (eos_token_id tokenizer)) ;;
  logger DEBUG [Text "Decoding response..."] ;;
  response_text <- call (decode tokenizer (skipn (length input_ids) outputs)) ;;
  logger INFO [Text "Response generated successfully."] ;;
  ret (JObj [("response", JStr response_text)]).

Definition chat (tokenizer : Tokenizer) (model : Model) (request : ChatRequest)
  : M Exn json :=
  logger INFO [Text "Chat request received. Length: ";
               Int (Z.of_nat (code_points (message request)));
               Text ", History: "; Int (Z.of_nat (length (history request)));
               Text ", Max tokens: "; Int (max_length request)] ;;
  try_except (chat_body tokenizer model request)
    (fun e =>
       logger ERROR [Text "Error during chat generation: "; ErrorText e] ;;
       logger ERROR [Traceback e] ;;
       raise (HTTPException 500 (str_of_error e))).

(** GET / *)
Definition root : M Exn json :=
  logger DEBUG [Text "Root endpoint called"] ;;
  ret (JObj [("status", JStr "ok"); ("model", JStr "gemma3-1b-it")]).

(** *** The framework around a handler *)

Record Request : Type := { method : string; url : string }.

Record Response : Type := { status_code : Z; body : json }.

(** What FastAPI makes of a route function: its return value is the
    body of a 200 response, an [HTTPException] becomes a response with
    that status and the body [{"detail": detail}], and any other
    exception propagates. *)
Definition route (handler : M Exn json) : M Exn Response :=
  fun log =>
    match handler log with
    | (inr v, log1) => (inr {| status_code := 200; body := v |}, log1)
    | (inl (HTTPException status detail), log1) =>
        (inr {| status_code := status; body := JObj [("detail", JStr detail)] |}, log1)
    | (inl (Error e), log1) => (inl (Error e), log1)
    end.

(** *** Middleware *)

Definition log_requests (request : Request) (call_next : Request -> M Exn Response)
  : M Exn Response :=
  logger INFO [Text "Incoming request: "; Text (method request); Text " ";
               Text (url request)] ;;
  try_except
    (response <- call_next request ;;
     logger INFO [Text "Request completed with status: "; Int (status_code response)] ;;
     ret response)
    (fun e =>
       logger ERROR [Text "Request failed: "; ExnText e] ;;
       call_next request).

(** POST /chat as the application serves it: the route behind the
    middleware. *)
Definition serve_chat (tokenizer : Tokenizer) (model : Model)
    (http : Request) (request : ChatRequest) : M Exn Response :=
  log_requests http (fun _ => route (chat tokenizer model request)).

End Api.

(** ** The start of the service: device, data type and loading (api.py) *)

Module Startup.

Definition MODEL_PATH : string := "models/gemma3-1b-it".

(** What [torch] reports about the machine. *)
Record Torch : Type := {
  cuda_is_available : bool;
  mps_is_available : bool
}.

Definition get_device (torch : Torch) : string :=
  if cuda_is_available torch then "cuda"
  else if mps_is_available torch then "mps"
  else "cpu".

Inductive Dtype : Type := float16 | float32.

(** [torch.float16 if DEVICE in ["cuda", "mps"] else torch.float32] *)
Definition DTYPE (DEVICE : string) : Dtype :=
  if existsb (String.eqb DEVICE) ["cuda"; "mps"] then float16 else float32.

(** [str(DTYPE)] *)
Definition dtype_text (d : Dtype) : string :=
  match d with
  | float16 => "torch.float16"
  | float32 => "torch.float32"
  end.

(** The loading functions of the transformers library, and [model.to]. *)
Record Transformers : Type := {
  (* AutoTokenizer.from_pretrained(path) *)
  tokenizer_from_pretrained : string -> Api.PyError + Api.Tokenizer;
  (* AutoModelForCausalLM.from_pretrained(path, dtype, device_map) *)
  model_from_pretrained : string -> Dtype -> option string -> Api.PyError + Api.Model;
  (* model.to(device) *)
  to : Api.Model -> string -> Api.PyError + Api.Model
}.

(** The module-level loading code: the announcement, then the [try]
    block; any exception in it is logged and replaced by a
    [RuntimeError] that names the model path only. *)
Definition load (lib : Transformers) (DEVICE : string)
  : Api.M Api.PyError (Api.Tokenizer * Api.Model) :=
  Api.logger Api.INFO
    [Api.Text "Loading model from "; Api.Text MODEL_PATH; Api.Text " on ";
     Api.Text DEVICE; Api.Text " (DTYPE: "; Api.Text (dtype_text (DTYPE DEVICE));
     Api.Text ")..."] ;;
  Api.try_except
    (tokenizer <- Api.call (tokenizer_from_pretrained lib MODEL_PATH) ;;
     model <- Api.call (model_from_pretrained lib MODEL_PATH (DTYPE DEVICE)
                          (if negb (String.eqb DEVICE "mps") then Some DEVICE else None)) ;;
     model <- (if String.eqb DEVICE "mps" then Api.call (to lib model DEVICE) else ret model) ;;
     Api.logger Api.INFO
       [Api.Text "Model loaded successfully on "; Api.Text DEVICE; Api.Text "."] ;;
     ret (tokenizer, model))
    (fun e =>
       Api.logger Api.CRITICAL [Api.Text "Error loading model: "; Api.ErrorText e] ;;
       Api.logger Api.DEBUG [Api.Traceback e] ;;
       Api.raise {| Api.str_of_error := "Failed to load model from " ++ MODEL_PATH |}).

(** The whole start: the device is chosen, then the model is loaded on
    it. *)
Definition start (torch : Torch) (lib : Transformers)
  : Api.M Api.PyError (Api.Tokenizer * Api.Model) :=
  load lib (get_device torch).

End Startup.

(** ** The terminal client: chat.py *)

Module Chat.

Definition API_URL : string := "http://localhost:8000/chat".

(** *** Text handling *)

(** ASCII whitespace as [str.strip()] sees it: tab to carriage return,
    the four separators 28..31, and the space. *)
Definition is_space (c : ascii) : bool :=
  let n := nat_of_ascii c in
  ((9 <=? n) && (n <=? 13) || (28 <=? n) && (n <=? 32))%nat.

Fixpoint lstrip (s : string) : string :=
  match s with
  | EmptyString => EmptyString
  | String c rest => if is_space c then lstrip rest else s
  end.

Fixpoint rstrip (s : string) : string :=
  match s with
  | EmptyString => EmptyString
  | String c rest =>
      match rstrip rest with
      | EmptyString => if is_space c then EmptyString else String c EmptyString
      | kept => String c kept
      end
  end.

Definition strip (s : string) : string := rstrip (lstrip s).

Definition lower_char (c : ascii) : ascii :=
  let n := nat_of_ascii c in
  if ((65 <=? n) && (n <=? 90))%nat then ascii_of_nat (n + 32) else c.

Fixpoint lower (s : string) : string :=
  match s with
  | EmptyString => EmptyString
  | String c rest => String (lower_char c) (lower rest)
  end.

(** *** The world around the loop *)

(** The request dictionary of one turn. *)
Record Payload : Type := {
  message : string;
  history : list Message;
  max_length : Z;
  temperature : Q
}.

(** What [input("You: ")] yields. *)
Inductive Stdin : Type :=
| Line (text : string)
| KeyboardInterrupt
| EOFError.

(** What [httpx.post] yields: a response with its status and its body
    ([None] when the body is not JSON), a transport failure
    ([httpx.RequestError]: refused connection, timeout), or an
    interrupt from the keyboard while waiting. *)
Inductive PostResult : Type :=
| Response (status_code : Z) (body : option json)
| RequestError (text : string)
| Interrupted.

(** Exceptions the generic [except Exception] clause of a turn sees. *)
Inductive PyExc : Type :=
| JSONDecodeError
| AttributeError (type_name attribute : string).

(** Pieces of a printed text. *)
Inductive Part : Type :=
| Text (s : string)
| Int (z : Z)
| Value (v : json)            (* str() of a decoded JSON value *)
| ExcText (e : PyExc).

(** What the program does to the outside, in order. *)
Inductive Event : Type :=
| Input (prompt : string)
| Print (text : list Part) (end_ : string)
| HttpGet (url : string)
| HttpPost (url : string) (payload : Payload).

Inductive Control : Type := Continue | Break.

Definition print (text : string) : Event := Print [Text text] newline.

Definition rule : Event := print (str_repeat "-" 50).

(** *** One turn *)

Definition type_name (v : json) : string :=
  match v with
  | JNull => "NoneType"
  | JBool _ => "bool"
  | JInt _ => "int"
  | JFloat _ => "float"
  | JStr _ => "str"
  | JList _ => "list"
  | JObj _ => "dict"
  end.

(** [response.raise_for_status()] passes on 2xx. *)
Definition is_success (status_code : Z) : bool :=
  (200 <=? status_code) && (status_code <=? 299).

(** [data = response.json(); data.get("response", "").strip()] *)
Definition bot_response_of (body : option json) : PyExc + string :=
  match body with
  | None => inl JSONDecodeError
  | Some (JObj members) =>
      match dict_get members "response" (JStr "") with
      | JStr s => inr (strip s)
      | v => inl (AttributeError (type_name v) "strip")
      end
  | Some v => inl (AttributeError (type_name v) "get")
  end.

(** The handler of [httpx.HTTPStatusError]: the status line, then the
    detail when the body is a JSON object; any failure to read it is
    passed over. *)
Definition report_status (status_code : Z) (body : option json) : list Event :=
  Print [Text (newline ++ "Error: Server returned status "); Int status_code] newline ::
  match body with
  | Some (JObj members) =>
      [Print [Text "Detail: "; Value (dict_get members "detail" (JStr "No detail"))] newline]
  | _ => []
  end.

(** The two appends and the cut to the last 20 entries. *)
Definition update_history (history : list Message) (user_input bot_response : string)
  : list Message :=
  let history := history ++ [{| role := "user"; content := user_input |}] in
  let history := history ++ [{| role := "assistant"; content := bot_response |}] in
  if (20 <? length history)%nat then slice_last 20 history else history.

Definition build_payload (history : list Message) (user_input : string) : Payload :=
  {| message := user_input;
     history := slice_last 10 history;
     max_length := 500;
     temperature := (7 # 10)%Q |}.

(** A chat turn: everything after the commands have been ruled out. *)
Definition turn (history : list Message) (user_input : string)
    (post : Payload -> PostResult) : list Event * list Message * Control :=
  let payload := build_payload history user_input in
  let sent := [Print [Text "Bot: ..."] carriage_return; HttpPost API_URL payload] in
  match post payload with
  | Response status_code body =>
      if is_success status_code then
        match bot_response_of body with
        | inr bot_response =>
            (sent ++ [Print [Text "Bot: "] ""; print bot_response; rule],
             update_history history user_input bot_response, Continue)
        | inl e =>
            (sent ++ [Print [Text "Bot: "] "";
                      Print [Text (newline ++ "An error occurred: "); ExcText e] newline;
                      rule],
             history, Continue)
        end
      else
        (sent ++ report_status status_code body ++ [rule], history, Continue)
  | RequestError text =>
      (sent ++ [Print [Text (newline ++ "Error: Could not connect to server. (");
                       Text text; Text ")"] newline;
                rule],
       history, Continue)
  | Interrupted =>
      (sent ++ [print (newline ++ "Goodbye!")], history, Break)
  end.

(** *** The loop *)

(** One pass through the body of [while True]. *)
Definition iteration (history : list Message) (stdin : Stdin)
    (post : Payload -> PostResult) : list Event * list Message * Control :=
  match stdin with
  | Line text =>
      let user_input := strip text in
      if String.eqb user_input "" then
        ([Input "You: "], history, Continue)
      else if String.eqb (lower user_input) "quit" || String.eqb (lower user_input) "exit" then
        ([Input "You: "; print "Goodbye!"], history, Break)
      else if String.eqb (lower user_input) "clear" then
        ([Input "You: "; print "History cleared."], [], Continue)
      else
        let '(events, history, control) := turn history user_input post in
        (Input "You: " :: events, history, control)
  | KeyboardInterrupt | EOFError =>
      ([Input "You: "; print (newline ++ "Goodbye!")], history, Break)
  end.

(** The loop over a script: what is typed at each prompt, and how the
    server answers a request made at that point.  It stops at the first
    [Break]; [Continue] at the end of the script means the loop is
    waiting for more input. *)
Fixpoint loop (history : list Message) (script : list (Stdin * (Payload -> PostResult)))
  : list Event * list Message * Control :=
  match script with
  | [] => ([], history, Continue)
  | (stdin, post) :: rest =>
      match iteration history stdin post with
      | (events, history, Break) => (events, history, Break)
      | (events, history, Continue) =>
          let '(events', history, control) := loop history rest in
          (events ++ events', history, control)
      end
  end.

(** [main]: the banner, the reachability check of the health endpoint
    ([reachable] is false when [httpx.get] raises a [RequestError]), then
    the loop from an empty history. *)
Definition main (reachable : bool) (script : list (Stdin * (Payload -> PostResult)))
  : list Event * list Message * Control :=
  let banner :=
    [print "Welcome to Gemma Chat! (Type 'quit' or 'exit' to leave, 'clear' to reset history)";
     rule; HttpGet "http://localhost:8000/"] in
  let warning :=
    if reachable then []
    else [print "Warning: Could not connect to http://localhost:8000. Make sure the server is running via './run.sh'";
          rule] in
  let '(events, history, control) := loop [] script in
  (banner ++ warning ++ events, history, control).

End Chat.

(** ** Client and service together *)

Module System.

(** The JSON body the client's payload dictionary is sent as: all four
    fields are present. *)
Definition body_of (payload : Chat.Payload) : Api.RequestBody :=
  {| Api.body_message := Chat.message payload;
     Api.body_history := Some (Chat.history payload);
     Api.body_max_length := Some (Chat.max_length payload);
     Api.body_temperature := Some (Chat.temperature payload) |}.

Definition post_chat : Api.Request :=
  {| Api.method := "POST"; Api.url := Chat.API_URL |}.

(** The service as the client's [httpx.post] sees it, for a server whose
    log holds [log] when the request arrives.  An exception that leaves
    the application is answered by the server with a 500 whose body is
    plain text. *)
Definition server (tokenizer : Api.Tokenizer) (model : Api.Model) (log : Api.Log)
  : Chat.Payload -> Chat.PostResult :=
  fun payload =>
    match Api.serve_chat tokenizer model post_chat (Api.validate (body_of payload)) log with
    | (inr response, _) =>
        Chat.Response (Api.status_code response) (Some (Api.body response))
    | (inl _, _) => Chat.Response 500 None
    end.

End System.

(** ** Small tokenizers and models to run the service on *)

Module Toy.

(** One token per byte; no chat template; token 0 pads. *)
Definition byte_tokenizer : Api.Tokenizer :=
  {| Api.apply_chat_template := None;
     Api.encode := fun s => inr (map (fun c => Z.of_nat (nat_of_ascii c)) (list_ascii_of_string s));
     Api.decode := fun t => inr (string_of_list_ascii (map (fun z => ascii_of_nat (Z.to_nat z)) t));
     Api.pad_token_id := Some 0;
     Api.eos_token_id := Some 1 |}.

(** The same with a template that frames the transcript between the
    tokens 2 and 3. *)
Definition template_tokenizer : Api.Tokenizer :=
  {| Api.apply_chat_template :=
       Some (fun messages =>
               match Api.encode byte_tokenizer (Api.context_of messages) with
               | inr ids => inr (Api.Encoding (2 :: ids ++ [3]))
               | inl e => inl e
               end);
     Api.encode := Api.encode byte_tokenizer;
     Api.decode := Api.decode byte_tokenizer;
     Api.pad_token_id := Some 0;
     Api.eos_token_id := Some 1 |}.

(** Answers "ok". *)
Definition ok_model : Api.Model :=
  {| Api.generate := fun input_ids _ _ _ _ => inr (input_ids ++ [111; 107]) |}.

(** Stops before the first new token. *)
Definition silent_model : Api.Model :=
  {| Api.generate := fun input_ids _ _ _ _ => inr input_ids |}.

(** Fails in generation. *)
Definition failing_model : Api.Model :=
  {| Api.generate := fun _ _ _ _ _ => inl {| Api.str_of_error := "out of memory" |} |}.

(** A handler that records its run in the log and raises. *)
Definition failing_handler (_ : Api.Request) : Api.M Api.Exn Api.Response :=
  Api.logger Api.DEBUG [Api.Text "handler entered"] ;;
  Api.raise (Api.Error {| Api.str_of_error := "boom" |}).

Definition user (text : string) : Message := {| role := "user"; content := text |}.
Definition assistant (text : string) : Message := {| role := "assistant"; content := text |}.

(** Six completed turns. *)
Definition twelve : list Message :=
  [user "a"; assistant "b"; user "c"; assistant "d"; user "e"; assistant "f";
   user "g"; assistant "h"; user "i"; assistant "j"; user "k"; assistant "l"].

(** Ten completed turns: a full history. *)
Definition twenty : list Message := twelve ++ firstn 8 twelve.

(** The request of a first turn. *)
Definition hello : Api.ChatRequest :=
  Api.validate (System.body_of (Chat.build_payload [] "Hello")).


(** A tokenizer whose template closes each turn with the end token 1,
    and whose padding token is that same token. *)
Definition eos_pad_tokenizer : Api.Tokenizer :=
  {| Api.apply_chat_template :=
       Some (fun messages =>
               inr (Api.Encoding
                      (flat_map
                         (fun m =>
                            map (fun c => Z.of_nat (nat_of_ascii c))
                              (list_ascii_of_string (role m ++ ": " ++ content m)) ++ [1])
                         messages)));
     Api.encode := Api.encode byte_tokenizer;
     Api.decode := Api.decode byte_tokenizer;
     Api.pad_token_id := Some 1;
     Api.eos_token_id := Some 1 |}.

(** Answers with the attention mask it was given. *)
Definition mask_model : Api.Model :=
  {| Api.generate := fun input_ids attention_mask _ _ _ => inr (input_ids ++ attention_mask) |}.

(** A library whose tokenizer loads and whose model does not. *)
Definition broken_library : Startup.Transformers :=
  {| Startup.tokenizer_from_pretrained := fun _ => inr byte_tokenizer;
     Startup.model_from_pretrained :=
       fun _ _ _ => inl {| Api.str_of_error := "no such file" |};
     Startup.to := fun m _ => inr m |}.

(** A library that loads, and whose models can be moved. *)
Definition working_library : Startup.Transformers :=
  {| Startup.tokenizer_from_pretrained := fun _ => inr byte_tokenizer;
     Startup.model_from_pretrained := fun _ _ _ => inr ok_model;
     Startup.to := fun m _ => inr m |}.

End Toy.

(** ** Specification-side definitions *)

(** "One [role: content] line per message, joined with newlines, in
    order": the first line, then every further line after a newline. *)
Definition plain_transcript (messages : list Message) : string :=
  match messages with
  | [] => ""
  | first :: others =>
      (role first ++ ": " ++ content first ++
       fold_right (fun m rest => newline ++ role m ++ ": " ++ content m ++ rest) "" others)%string
  end.

(** A history made of (user, assistant) pairs. *)
Fixpoint alternating (history : list Message) : bool :=
  match history with
  | [] => true
  | u :: a :: rest =>
      String.eqb (role u) "user" && String.eqb (role a) "assistant" && alternating rest
  | _ => false
  end.

(** The number of requests to the chat endpoint among some events. *)
Definition posts (events : list Chat.Event) : nat :=
  length (filter (fun ev => match ev with Chat.HttpPost _ _ => true | _ => false end) events).

(** The two records [log_requests] writes before and after a failing
    handler. *)
Definition incoming (request : Api.Request) : Api.LogRecord :=
  {| Api.level := Api.INFO;
     Api.msg := [Api.Text "Incoming request: "; Api.Text (Api.method request);
                 Api.Text " "; Api.Text (Api.url request)] |}.

Definition failed (e : Api.Exn) : Api.LogRecord :=
  {| Api.level := Api.ERROR; Api.msg := [Api.Text "Request failed: "; Api.ExnText e] |}.

(** Strings made of whitespace only. *)
Fixpoint all_space (s : string) : bool :=
  match s with
  | EmptyString => true
  | String c rest => Chat.is_space c && all_space rest
  end.

(** Scripts whose typed lines are ASCII text. *)
Definition ascii_script (script : list (Chat.Stdin * (Chat.Payload -> Chat.PostResult))) : Prop :=
  forall text post, In (Chat.Line text, post) script -> ascii_text text = true.

(** The number of lines typed in a script. *)
Definition typed_lines (script : list (Chat.Stdin * (Chat.Payload -> Chat.PostResult))) : nat :=
  length (filter (fun step => match fst step with Chat.Line _ => true | _ => false end) script).

(** The number of ERROR records in a log. *)
Definition errors (log : Api.Log) : nat :=
  length (filter (fun r => match Api.level r with Api.ERROR => true | _ => false end) log).

(** A history entry as the client stores it: role user or assistant, and
    a content without blanks at its ends. *)
Definition stored_entry (m : Message) : Prop :=
  (role m = "user" \/ role m = "assistant") /\ Chat.strip (content m) = content m.

(** ** Properties *)

Section Assembly.

Lemma fold_append_copy (h acc : list Message) :
  fold_left
    (fun messages msg => messages ++ [{| role := role msg; content := content msg |}])
    h acc = acc ++ h.
Proof.
  revert acc. induction h as [| [r c] h IH]; intros acc; simpl.
  - now rewrite app_nil_r.
  - rewrite IH, <- app_assoc. reflexivity.
Qed.

(** C3. The message list assembled for the model is the history followed
    by one user entry holding the new message: one entry longer than
    the history, every history entry at its own position with role and
    content unchanged, and a single user turn when the history is
    empty. *)
Theorem build_messages_is_history_then_user (request : Api.ChatRequest) :
  let messages := Api.build_messages request in
  let latest := {| role := "user"; content := Api.message request |} in
  messages = Api.history request ++ [latest]
  /\ length messages = S (length (Api.history request))
  /\ (forall i m, nth_error (Api.history request) i = Some m ->
                  nth_error messages i = Some m)
  /\ nth_error messages (length (Api.history request)) = Some latest
  /\ (Api.history request = [] -> messages = [latest]).
Proof.
  intros messages latest.
  assert (E : messages = Api.history request ++ [latest]).
  { unfold messages, Api.build_messages. now rewrite fold_append_copy. }
  rewrite E. repeat split.
  - rewrite length_app. simpl. lia.
  - intros i m H. rewrite nth_error_app1; [exact H |].
    apply nth_error_Some. congruence.
  - rewrite nth_error_app2 by lia. now rewrite Nat.sub_diag.
  - intros ->. reflexivity.
Qed.

Lemma build_messages_is_history_then_user_witness :
  nth_error
    (Api.build_messages
       {| Api.message := "more"; Api.history := Toy.twelve; Api.max_length := 200;
          Api.temperature := (7 # 10)%Q |}) 1
  = Some (Toy.assistant "b")
  /\ Api.build_messages Toy.hello = [{| role := "user"; content := "Hello" |}].
Proof.
  split.
  - exact (proj1 (proj2 (proj2
             (build_messages_is_history_then_user
                {| Api.message := "more"; Api.history := Toy.twelve; Api.max_length := 200;
                   Api.temperature := (7 # 10)%Q |})))
             1%nat (Toy.assistant "b") eq_refl).
  - exact (proj2 (proj2 (proj2 (proj2 (build_messages_is_history_then_user Toy.hello))))
             eq_refl).
Defined.

Lemma build_messages_first_turn :
  Api.build_messages
    {| Api.message := "Hello"; Api.history := []; Api.max_length := 200;
       Api.temperature := (7 # 10)%Q |}
  = [{| role := "user"; content := "Hello" |}].
Proof. reflexivity. Qed.

End Assembly.

Section Tokenization.

Lemma append_assoc (a b c : string) : ((a ++ b) ++ c = a ++ (b ++ c))%string.
Proof. induction a as [| x a IH]; simpl; [reflexivity | now rewrite IH]. Qed.

Lemma append_nil_r (a : string) : (a ++ "" = a)%string.
Proof. induction a as [| x a IH]; simpl; [reflexivity | now rewrite IH]. Qed.

Lemma plain_transcript_cons (m : Message) (others : list Message) :
  others <> [] ->
  plain_transcript (m :: others)
  = (role m ++ ": " ++ content m ++ newline ++ plain_transcript others)%string.
Proof.
  destruct others as [| m' others]; [congruence | intros _].
  reflexivity.
Qed.

Lemma context_of_is_plain_transcript (messages : list Message) :
  Api.context_of messages = plain_transcript messages.
Proof.
  unfold Api.context_of.
  induction messages as [| m others IH]; [reflexivity |].
  destruct others as [| m' others].
  - simpl. now rewrite append_nil_r.
  - rewrite plain_transcript_cons by discriminate.
    rewrite <- IH. cbn [map str_join].
    now rewrite !append_assoc.
Qed.

(** C8. A tokenizer without a chat template does not make the request
    fail: the input is what [encode] gives for the plain transcript, one
    [role: content] line per message in order, joined with newlines. *)
Theorem fallback_encodes_plain_transcript
    (tokenizer : Api.Tokenizer) (messages : list Message) (log : Api.Log)
    (Hno_template : Api.apply_chat_template tokenizer = None) :
  Api.tokenize tokenizer messages log
  = (Api.encode tokenizer (plain_transcript messages),
     log ++ [{| Api.level := Api.DEBUG;
                Api.msg := [Api.Text "Encoding raw text (Template not found)..."] |}]).
Proof.
  unfold Api.tokenize. rewrite Hno_template.
  rewrite <- context_of_is_plain_transcript.
  reflexivity.
Qed.

Lemma fallback_encodes_plain_transcript_witness :
  Api.tokenize Toy.byte_tokenizer [Toy.user "Hi"; Toy.assistant "Yo"; Toy.user "ok"] []
  = (inr [117; 115; 101; 114; 58; 32; 72; 105; 10;
          97; 115; 115; 105; 115; 116; 97; 110; 116; 58; 32; 89; 111; 10;
          117; 115; 101; 114; 58; 32; 111; 107],
     [{| Api.level := Api.DEBUG;
         Api.msg := [Api.Text "Encoding raw text (Template not found)..."] |}]).
Proof.
  exact (fallback_encodes_plain_transcript Toy.byte_tokenizer
           [Toy.user "Hi"; Toy.assistant "Yo"; Toy.user "ok"] [] eq_refl).
Defined.

(** With a template the input comes from the template instead, and the
    transcript is not encoded on its own. *)
Lemma template_is_used_when_present
    (tokenizer : Api.Tokenizer) (template : list Message -> Api.PyError + Api.TemplateOutput)
    (messages : list Message) (log : Api.Log) :
  Api.apply_chat_template tokenizer = Some template ->
  fst (Api.tokenize tokenizer messages log)
  = match template messages with
    | inr out => inr (Api.input_ids_of out)
    | inl e => inl e
    end.
Proof.
  intros H. unfold Api.tokenize. rewrite H. cbn.
  destruct (template messages); reflexivity.
Qed.

Example template_and_fallback_differ :
  fst (Api.tokenize Toy.template_tokenizer [Toy.user "Hi"] [])
  <> fst (Api.tokenize Toy.byte_tokenizer [Toy.user "Hi"] []).
Proof. vm_compute. discriminate. Qed.

End Tokenization.

Section AttentionMask.

(** The flags of [attention_mask_of] for a tokenizer with a padding
    token: one per input token, 1 when token i is not the padding token
    and 0 when it is. *)
Theorem attention_mask_flags_non_padding
    (tokenizer : Api.Tokenizer) (input_ids : Api.Tensor) (pad : Z)
    (Hpad : Api.pad_token_id tokenizer = Some pad) :
  exists mask,
    Api.attention_mask_of input_ids (Api.pad_token_id tokenizer) = inr mask
    /\ length mask = length input_ids
    /\ forall i token, nth_error input_ids i = Some token ->
         (token <> pad -> nth_error mask i = Some 1)
         /\ (token = pad -> nth_error mask i = Some 0).
Proof.
  rewrite Hpad. unfold Api.attention_mask_of, Api.long, Api.tensor_ne.
  eexists. split; [reflexivity |]. split.
  - now rewrite !length_map.
  - intros i token Hi.
    rewrite map_map, nth_error_map, Hi. cbn.
    destruct (Z.eqb_spec token pad); split; intros; (reflexivity || contradiction).
Qed.

Lemma attention_mask_flags_non_padding_witness :
  exists mask,
    Api.attention_mask_of [0; 5; 7; 0] (Api.pad_token_id Toy.byte_tokenizer) = inr mask
    /\ length mask = 4%nat
    /\ forall i token, nth_error [0; 5; 7; 0] i = Some token ->
         (token <> 0 -> nth_error mask i = Some 1)
         /\ (token = 0 -> nth_error mask i = Some 0).
Proof.
  exact (attention_mask_flags_non_padding Toy.byte_tokenizer [0; 5; 7; 0] 0 eq_refl).
Defined.

Example attention_mask_run :
  Api.attention_mask_of [0; 5; 7; 0] (Some 0) = inr [0; 1; 1; 0].
Proof. reflexivity. Qed.

(** Without a padding token no mask is built: the request fails. *)
Lemma attention_mask_without_pad_token (input_ids : Api.Tensor) :
  exists e, Api.attention_mask_of input_ids None = inl e.
Proof. eexists. reflexivity. Qed.

End AttentionMask.

Section Middleware.

(** C1 (what the code does). When the downstream handler raises, the
    middleware logs the failure and then runs the handler again, on the
    log the first run left behind; the outcome of the request is the
    outcome of that second run. *)
Theorem log_requests_runs_failing_handler_again
    (request : Api.Request) (call_next : Api.Request -> Api.M Api.Exn Api.Response)
    (log log1 : Api.Log) (e : Api.Exn)
    (Hraises : call_next request (log ++ [incoming request]) = (inl e, log1)) :
  Api.log_requests request call_next log
  = call_next request (log1 ++ [failed e]).
Proof.
  unfold Api.log_requests, Api.try_except. cbn.
  unfold incoming in Hraises. rewrite Hraises. reflexivity.
Qed.

Lemma log_requests_runs_failing_handler_again_witness :
  Api.log_requests System.post_chat Toy.failing_handler []
  = Toy.failing_handler System.post_chat
      ([incoming System.post_chat;
        {| Api.level := Api.DEBUG; Api.msg := [Api.Text "handler entered"] |}]
       ++ [failed (Api.Error {| Api.str_of_error := "boom" |})]).
Proof.
  exact (log_requests_runs_failing_handler_again System.post_chat Toy.failing_handler
           [] _ _ eq_refl).
Defined.

(** The handler's own log record appears twice for one request. *)
Example failing_handler_is_entered_twice :
  length
    (filter
       (fun r => match Api.msg r with
                 | [Api.Text s] => String.eqb s "handler entered"
                 | _ => false
                 end)
       (snd (Api.log_requests System.post_chat Toy.failing_handler [])))
  = 2%nat.
Proof. reflexivity. Qed.

(** A handler that returns is run once. *)
Lemma log_requests_runs_returning_handler_once
    (request : Api.Request) (call_next : Api.Request -> Api.M Api.Exn Api.Response)
    (log log1 : Api.Log) (response : Api.Response) :
  call_next request (log ++ [incoming request]) = (inr response, log1) ->
  Api.log_requests request call_next log
  = (inr response,
     log1 ++ [{| Api.level := Api.INFO;
                 Api.msg := [Api.Text "Request completed with status: ";
                             Api.Int (Api.status_code response)] |}]).
Proof.
  intros H. unfold Api.log_requests, Api.try_except. cbn.
  unfold incoming in H. rewrite H. reflexivity.
Qed.

End Middleware.

Section Slices.

Context {A : Type}.

Lemma length_slice_last (k : nat) (l : list A) :
  length (slice_last k l) = Nat.min k (length l).
Proof. unfold slice_last. rewrite length_skipn. lia. Qed.

Lemma slice_last_is_suffix (k : nat) (l : list A) :
  firstn (length l - k) l ++ slice_last k l = l.
Proof. apply firstn_skipn. Qed.

Lemma slice_last_short (k : nat) (l : list A) :
  (length l <= k)%nat -> slice_last k l = l.
Proof.
  intros H. unfold slice_last.
  replace (length l - k)%nat with 0%nat by lia. reflexivity.
Qed.

End Slices.

Section ClientSteps.

Import Chat.

Lemma update_history_is_slice (history : list Message) (user_input bot_response : string) :
  update_history history user_input bot_response
  = slice_last 20 (history ++ [{| role := "user"; content := user_input |};
                               {| role := "assistant"; content := bot_response |}]).
Proof.
  unfold update_history. rewrite <- app_assoc. cbn [app].
  match goal with |- context [Nat.ltb 20 (length ?l)] =>
    destruct (Nat.ltb_spec 20 (length l)) as [Hlong | Hshort]
  end.
  - reflexivity.
  - now rewrite slice_last_short.
Qed.

(** The only request of a turn carries the payload built from the
    history held when the turn starts. *)
Lemma turn_posts_built_payload (history : list Message) (user_input : string)
    (post : Payload -> PostResult) (url : string) (payload : Payload) :
  In (HttpPost url payload) (fst (fst (turn history user_input post))) ->
  url = API_URL /\ payload = build_payload history user_input.
Proof.
  unfold turn, report_status, print, rule.
  destruct (post (build_payload history user_input)) as [status body | text |].
  - destruct (is_success status).
    + destruct (bot_response_of body); cbn;
        intros H; repeat (destruct H as [H | H]; try discriminate; try contradiction);
        now inversion H.
    + destruct body as [[| | | | | | members] |]; cbn;
        intros H; repeat (destruct H as [H | H]; try discriminate; try contradiction);
        now inversion H.
  - cbn. intros H; repeat (destruct H as [H | H]; try discriminate; try contradiction);
      now inversion H.
  - cbn. intros H; repeat (destruct H as [H | H]; try discriminate; try contradiction);
      now inversion H.
Qed.

Lemma iteration_posts_built_payload (history : list Message) (stdin : Stdin)
    (post : Payload -> PostResult) (url : string) (payload : Payload) :
  In (HttpPost url payload) (fst (fst (iteration history stdin post))) ->
  exists user_input, payload = build_payload history user_input.
Proof.
  unfold iteration, print.
  destruct stdin as [text | |].
  - destruct (String.eqb (strip text) "").
    { cbn. intros [H | []]. discriminate. }
    destruct (String.eqb (lower (strip text)) "quit" || String.eqb (lower (strip text)) "exit").
    { cbn. intros [H | [H | []]]; discriminate. }
    destruct (String.eqb (lower (strip text)) "clear").
    { cbn. intros [H | [H | []]]; discriminate. }
    pose proof (turn_posts_built_payload history (strip text) post url payload) as Hturn.
    destruct (turn history (strip text) post) as [[events history'] control].
    cbn in *. intros [H | H]; [discriminate |].
    exists (strip text). now apply Hturn.
  - cbn. intros [H | [H | []]]; discriminate.
  - cbn. intros [H | [H | []]]; discriminate.
Qed.

(** The client does not repeat a request: an iteration sends at most
    one, whatever the answer. *)
Lemma iteration_posts_at_most_once (history : list Message) (stdin : Stdin)
    (post : Payload -> PostResult) :
  (posts (fst (fst (iteration history stdin post))) <= 1)%nat.
Proof.
  unfold iteration, print.
  destruct stdin as [text | |]; [| cbn; lia | cbn; lia].
  destruct (String.eqb (strip text) ""); [cbn; lia |].
  destruct (String.eqb (lower (strip text)) "quit" || String.eqb (lower (strip text)) "exit");
    [cbn; lia |].
  destruct (String.eqb (lower (strip text)) "clear"); [cbn; lia |].
  unfold turn, report_status.
  destruct (post (build_payload history (strip text))) as [status body | err |];
    [| cbn; lia | cbn; lia].
  destruct (is_success status).
  - destruct (bot_response_of body); cbn; lia.
  - destruct body as [[| | | | | | members] |]; cbn; lia.
Qed.

(** C5. Whatever history the client holds, a request it sends carries
    at most 10 history entries, and they are the last entries of the
    held history. *)
Theorem sent_history_is_last_10 (history : list Message) (stdin : Stdin)
    (post : Payload -> PostResult) (url : string) (payload : Payload)
    (Hsent : In (HttpPost url payload) (fst (fst (iteration history stdin post)))) :
  (length (Chat.history payload) <= 10)%nat
  /\ length (Chat.history payload) = Nat.min 10 (length history)
  /\ exists older, history = older ++ Chat.history payload.
Proof.
  destruct (iteration_posts_built_payload _ _ _ _ _ Hsent) as [user_input ->].
  cbn [Chat.history build_payload].
  rewrite length_slice_last. repeat split; try lia.
  exists (firstn (length history - 10) history).
  symmetry. apply slice_last_is_suffix.
Qed.

Lemma sent_history_is_last_10_witness :
  let payload := build_payload Toy.twelve "more" in
  (length (Chat.history payload) <= 10)%nat
  /\ length (Chat.history payload) = Nat.min 10 (length Toy.twelve)
  /\ exists older, Toy.twelve = older ++ Chat.history payload.
Proof.
  apply (sent_history_is_last_10 Toy.twelve (Line "more")
           (System.server Toy.byte_tokenizer Toy.ok_model []) API_URL).
  vm_compute. right. right. left. reflexivity.
Defined.

Example sent_history_of_twelve :
  Chat.history (build_payload Toy.twelve "more")
  = [Toy.user "c"; Toy.assistant "d"; Toy.user "e"; Toy.assistant "f"; Toy.user "g";
     Toy.assistant "h"; Toy.user "i"; Toy.assistant "j"; Toy.user "k"; Toy.assistant "l"].
Proof. reflexivity. Qed.

(** C9. The command [clear], in any letter case and with any blanks
    around it, empties the history, prints its confirmation and sends
    no request; the loop goes on. *)
Theorem clear_resets_without_request (history : list Message) (text : string)
    (post : Payload -> PostResult)
    (Hclear : lower (strip text) = "clear") :
  iteration history (Line text) post
  = ([Input "You: "; print "History cleared."], [], Continue)
  /\ forall event, In event (fst (fst (iteration history (Line text) post))) ->
       match event with HttpPost _ _ | HttpGet _ => False | _ => True end.
Proof.
  assert (E : iteration history (Line text) post
              = ([Input "You: "; print "History cleared."], [], Continue)).
  { unfold iteration. rewrite Hclear.
    destruct (String.eqb_spec (strip text) "") as [Hempty | _].
    - rewrite Hempty in Hclear. discriminate.
    - reflexivity. }
  split; [exact E |].
  rewrite E. cbn. intros event [<- | [<- | []]]; exact I.
Qed.

Lemma clear_resets_without_request_witness :
  iteration Toy.twelve (Line "  Clear ") (fun _ => Response 200 None)
  = ([Input "You: "; print "History cleared."], [], Continue)
  /\ forall event,
       In event (fst (fst (iteration Toy.twelve (Line "  Clear ") (fun _ => Response 200 None)))) ->
       match event with HttpPost _ _ | HttpGet _ => False | _ => True end.
Proof.
  apply (clear_resets_without_request Toy.twelve "  Clear " (fun _ => Response 200 None)).
  reflexivity.
Defined.

End ClientSteps.

Section ClientInvariants.

Import Chat.

(** What an iteration can leave as history: the one it started with,
    the empty one, or the one a completed turn updates it to. *)
Lemma iteration_history_cases (history : list Message) (stdin : Stdin)
    (post : Payload -> PostResult) :
  let history' := snd (fst (iteration history stdin post)) in
  history' = history
  \/ history' = []
  \/ exists user_input bot_response,
       history' = update_history history user_input bot_response.
Proof.
  unfold iteration.
  destruct stdin as [text | |]; try (left; reflexivity).
  destruct (String.eqb (strip text) ""); [left; reflexivity |].
  destruct (String.eqb (lower (strip text)) "quit" || String.eqb (lower (strip text)) "exit");
    [left; reflexivity |].
  destruct (String.eqb (lower (strip text)) "clear"); [right; left; reflexivity |].
  unfold turn.
  destruct (post (build_payload history (strip text))) as [status body | err |];
    try (left; reflexivity).
  destruct (is_success status); [| left; reflexivity].
  destruct (bot_response_of body) as [e | bot_response]; [left; reflexivity |].
  right. right. exists (strip text), bot_response. reflexivity.
Qed.

(** An invariant of the history that the empty history has and that
    every completed turn keeps holds after any script. *)
Lemma loop_invariant (P : list Message -> Prop)
    (Hempty : P [])
    (Hturn : forall history user_input bot_response,
               P history -> P (update_history history user_input bot_response))
    (script : list (Stdin * (Payload -> PostResult))) :
  forall history, P history -> P (snd (fst (loop history script))).
Proof.
  induction script as [| [stdin post] rest IH]; intros history Hh; [exact Hh |].
  cbn [loop].
  pose proof (iteration_history_cases history stdin post) as Hcases.
  destruct (iteration history stdin post) as [[events history'] control].
  cbn in Hcases.
  assert (Hh' : P history').
  { destruct Hcases as [-> | [-> | (u & b & ->)]]; auto. }
  destruct control.
  - specialize (IH history' Hh').
    destruct (loop history' rest) as [[events' history''] control']. exact IH.
  - exact Hh'.
Qed.

Lemma main_invariant (P : list Message -> Prop)
    (Hempty : P [])
    (Hturn : forall history user_input bot_response,
               P history -> P (update_history history user_input bot_response))
    (reachable : bool) (script : list (Stdin * (Payload -> PostResult))) :
  P (snd (fst (main reachable script))).
Proof.
  unfold main.
  pose proof (loop_invariant P Hempty Hturn script [] Hempty) as H.
  destruct (loop [] script) as [[events history] control]. exact H.
Qed.

(** C6. After any script played from the start of the program the
    history has at most 20 entries; and a completed turn leaves the
    last entries of the extended history, 20 of them when it is longer
    than that. *)
Theorem retained_history_at_most_20 :
  (forall reachable script, (length (snd (fst (main reachable script))) <= 20)%nat)
  /\ (forall history user_input bot_response,
        let extended := history ++ [{| role := "user"; content := user_input |};
                                    {| role := "assistant"; content := bot_response |}] in
        let kept := update_history history user_input bot_response in
        length kept = Nat.min 20 (length extended)
        /\ exists dropped, extended = dropped ++ kept).
Proof.
  split.
  - intros reachable script.
    apply (main_invariant (fun h => (length h <= 20)%nat)); [cbn; lia |].
    intros history u b _.
    rewrite update_history_is_slice, length_slice_last. lia.
  - intros history u b extended kept. unfold kept.
    rewrite update_history_is_slice. fold extended. split.
    + apply length_slice_last.
    + exists (firstn (length extended - 20) extended).
      symmetry. apply slice_last_is_suffix.
Qed.

Lemma alternating_app (h1 h2 : list Message) :
  alternating h1 = true -> alternating h2 = true -> alternating (h1 ++ h2) = true.
Proof.
  revert h2.
  induction h1 as [h1 IH] using (well_founded_induction
                                   (Wf_nat.well_founded_ltof _ (@length Message))).
  intros h2 H1 H2.
  destruct h1 as [| u [| a rest]]; [exact H2 | discriminate |].
  cbn in H1 |- *.
  apply andb_true_iff in H1 as [Hroles Hrest].
  rewrite Hroles. cbn.
  apply IH; [unfold Wf_nat.ltof; cbn; lia | exact Hrest | exact H2].
Qed.

Lemma alternating_skipn_even (k : nat) :
  forall history, alternating history = true ->
                  alternating (skipn (2 * k) history) = true.
Proof.
  induction k as [| k IH]; intros history H; [exact H |].
  replace (2 * S k)%nat with (S (S (2 * k))) by lia.
  destruct history as [| u [| a rest]]; [reflexivity | discriminate |].
  cbn [skipn]. apply IH.
  cbn in H. now apply andb_true_iff in H as [_ H].
Qed.

Lemma alternating_even_length :
  forall history, alternating history = true -> Nat.Even (length history).
Proof.
  intros history.
  induction history as [history IH] using (well_founded_induction
                                   (Wf_nat.well_founded_ltof _ (@length Message))).
  intros H.
  destruct history as [| u [| a rest]]; [exists 0%nat; reflexivity | discriminate |].
  cbn in H. apply andb_true_iff in H as [_ H].
  destruct (IH rest) as [n Hn]; [unfold Wf_nat.ltof; cbn; lia | exact H |].
  exists (S n). cbn [length]. lia.
Qed.

Lemma update_history_alternating (history : list Message) (user_input bot_response : string) :
  alternating history = true ->
  alternating (update_history history user_input bot_response) = true.
Proof.
  intros H. rewrite update_history_is_slice. unfold slice_last.
  match goal with |- context [skipn _ ?l] => set (extended := l) end.
  assert (Hext : alternating extended = true).
  { apply alternating_app; [exact H | reflexivity]. }
  destruct (alternating_even_length extended Hext) as [n Hn].
  rewrite Hn.
  replace (2 * n - 20)%nat with (2 * (n - 10))%nat by lia.
  now apply alternating_skipn_even.
Qed.

(** C10. After any script played from the start of the program the
    history is a sequence of (user, assistant) pairs, so its length is
    even; and a completed turn, with its cut to the last 20 entries,
    keeps a history of that shape in that shape. *)
Theorem history_alternates_user_assistant :
  (forall reachable script,
      let history := snd (fst (main reachable script)) in
      alternating history = true /\ Nat.Even (length history))
  /\ (forall history user_input bot_response,
        alternating history = true ->
        alternating (update_history history user_input bot_response) = true).
Proof.
  split.
  - intros reachable script history.
    assert (H : alternating history = true).
    { apply (main_invariant (fun h => alternating h = true)); [reflexivity |].
      intros h u b. apply update_history_alternating. }
    split; [exact H | now apply alternating_even_length].
  - exact update_history_alternating.
Qed.

Lemma history_alternates_user_assistant_witness :
  alternating (snd (fst (main true [(Line "Hello", fun _ => Response 200 None)]))) = true
  /\ alternating (update_history Toy.twenty "more" "sure") = true.
Proof.
  split.
  - exact (proj1 (proj1 history_alternates_user_assistant true
                    [(Line "Hello", fun _ => Response 200 None)])).
  - apply (proj2 history_alternates_user_assistant Toy.twenty "more" "sure").
    reflexivity.
Defined.

Example full_history_drops_oldest_pair :
  update_history Toy.twenty "more" "sure"
  = skipn 2 Toy.twenty ++ [Toy.user "more"; Toy.assistant "sure"].
Proof. reflexivity. Qed.

End ClientInvariants.

Section ChatEndpoint.

Variables (tokenizer : Api.Tokenizer) (model : Api.Model).

(** The input ids of a request: template output or encoded transcript. *)
Lemma tokenize_outcome (messages : list Message) (log : Api.Log) :
  fst (Api.tokenize tokenizer messages log)
  = match Api.apply_chat_template tokenizer with
    | Some template =>
        match template messages with
        | inr out => inr (Api.input_ids_of out)
        | inl e => inl e
        end
    | None => Api.encode tokenizer (Api.context_of messages)
    end.
Proof.
  unfold Api.tokenize.
  destruct (Api.apply_chat_template tokenizer) as [template |]; cbn.
  - destruct (template messages); reflexivity.
  - reflexivity.
Qed.

(** The outcome of the [try] block, stage by stage: the first stage
    that raises decides it, and the log it started from does not. *)
Lemma chat_body_outcome (request : Api.ChatRequest) (log : Api.Log) :
  fst (Api.chat_body tokenizer model request log)
  = match fst (Api.tokenize tokenizer (Api.build_messages request) []) with
    | inl e => inl e
    | inr input_ids =>
        match Api.attention_mask_of input_ids (Api.pad_token_id tokenizer) with
        | inl e => inl e
        | inr attention_mask =>
            match Api.generate model input_ids attention_mask (Api.max_length request)
                    (Api.temperature request) (Api.eos_token_id tokenizer) with
            | inl e => inl e
            | inr outputs =>
                match Api.decode tokenizer (skipn (length input_ids) outputs) with
                | inl e => inl e
                | inr response_text => inr (JObj [("response", JStr response_text)])
                end
            end
        end
    end.
Proof.
  rewrite tokenize_outcome.
  unfold Api.chat_body, Api.tokenize, Api.call.
  destruct (Api.apply_chat_template tokenizer) as [template |]; cbn.
  - destruct (template (Api.build_messages request)) as [e | out]; cbn; [reflexivity |].
    destruct (Api.attention_mask_of (Api.input_ids_of out) (Api.pad_token_id tokenizer))
      as [e | mask]; cbn; [reflexivity |].
    destruct (Api.generate model (Api.input_ids_of out) mask (Api.max_length request)
                (Api.temperature request) (Api.eos_token_id tokenizer))
      as [e | outputs]; cbn; [reflexivity |].
    destruct (Api.decode tokenizer (skipn (length (Api.input_ids_of out)) outputs));
      reflexivity.
  - destruct (Api.encode tokenizer (Api.context_of (Api.build_messages request)))
      as [e | ids]; cbn; [reflexivity |].
    destruct (Api.attention_mask_of ids (Api.pad_token_id tokenizer))
      as [e | mask]; cbn; [reflexivity |].
    destruct (Api.generate model ids mask (Api.max_length request)
                (Api.temperature request) (Api.eos_token_id tokenizer))
      as [e | outputs]; cbn; [reflexivity |].
    destruct (Api.decode tokenizer (skipn (length ids) outputs)); reflexivity.
Qed.

Lemma chat_body_any_log (request : Api.ChatRequest) (log : Api.Log) :
  fst (Api.chat_body tokenizer model request log)
  = fst (Api.chat_body tokenizer model request []).
Proof. now rewrite !chat_body_outcome. Qed.

(** A body that returns gives a [response] object. *)
Lemma chat_body_returns_response (request : Api.ChatRequest) (log : Api.Log) (v : json) :
  fst (Api.chat_body tokenizer model request log) = inr v ->
  exists response_text, v = JObj [("response", JStr response_text)].
Proof.
  rewrite chat_body_outcome.
  repeat match goal with
         | |- context [match ?x with inl _ => _ | inr _ => _ end] => destruct x
         end; try discriminate.
  intros [= <-]. eauto.
Qed.

(** The route: 500 with the detail when the body raises, 200 with the
    body's value when it returns. *)
Lemma route_chat_outcome (request : Api.ChatRequest) (log : Api.Log) :
  exists log',
    Api.route (Api.chat tokenizer model request) log
    = (inr match fst (Api.chat_body tokenizer model request []) with
           | inl e => {| Api.status_code := 500;
                         Api.body := JObj [("detail", JStr (Api.str_of_error e))] |}
           | inr v => {| Api.status_code := 200; Api.body := v |}
           end, log').
Proof.
  unfold Api.route, Api.chat, Api.try_except, Api.logger. cbn [bind Api.Monad_M].
  match goal with |- context [Api.chat_body tokenizer model request (?l ++ ?r)] =>
    rewrite <- (chat_body_any_log request (l ++ r));
    destruct (Api.chat_body tokenizer model request (l ++ r)) as [[e | v] log1]
  end; cbn; eauto.
Qed.

(** Behind the middleware the answer is the same: the route never
    raises, so the handler runs once. *)
Lemma serve_chat_outcome (http : Api.Request) (request : Api.ChatRequest) (log : Api.Log) :
  exists log',
    Api.serve_chat tokenizer model http request log
    = (inr match fst (Api.chat_body tokenizer model request []) with
           | inl e => {| Api.status_code := 500;
                         Api.body := JObj [("detail", JStr (Api.str_of_error e))] |}
           | inr v => {| Api.status_code := 200; Api.body := v |}
           end, log').
Proof.
  unfold Api.serve_chat.
  destruct (route_chat_outcome request (log ++ [incoming http])) as [log1 Hroute].
  eexists.
  apply (log_requests_runs_returning_handler_once http
           (fun _ => Api.route (Api.chat tokenizer model request)) log log1).
  exact Hroute.
Qed.

End ChatEndpoint.

Section EndToEnd.

Import Chat.

(** The client's handling of an error status: the status line, the
    detail of a JSON object body, the rule; the history is the one the
    turn started with and the loop goes on. *)
Lemma turn_on_error_status (history : list Message) (user_input : string)
    (post : Payload -> PostResult) (status : Z) (members : list (string * json)) :
  post (build_payload history user_input) = Response status (Some (JObj members)) ->
  is_success status = false ->
  turn history user_input post
  = ([Print [Text "Bot: ..."] carriage_return;
      HttpPost API_URL (build_payload history user_input);
      Print [Text (newline ++ "Error: Server returned status "); Int status] newline;
      Print [Text "Detail: "; Value (dict_get members "detail" (JStr "No detail"))] newline;
      rule],
     history, Continue).
Proof.
  intros Hpost Hstatus. unfold turn. rewrite Hpost, Hstatus. reflexivity.
Qed.

(** C4. When the [try] block of [chat] raises, at whatever stage, the
    service answers with status 500 and the body [{"detail": str(e)}]
    instead of letting the exception out; a client turn that gets this
    answer prints the status and the detail, keeps its history as it
    was and goes on with its loop. *)
Theorem chat_failure_is_500_and_history_kept
    (tokenizer : Api.Tokenizer) (model : Api.Model) (request : Api.ChatRequest)
    (e : Api.PyError)
    (Hraises : fst (Api.chat_body tokenizer model request []) = inl e) :
  (forall http log, exists log',
      Api.serve_chat tokenizer model http request log
      = (inr {| Api.status_code := 500;
                Api.body := JObj [("detail", JStr (Api.str_of_error e))] |}, log'))
  /\ (forall history user_input log,
        Api.validate (System.body_of (build_payload history user_input)) = request ->
        turn history user_input (System.server tokenizer model log)
        = ([Print [Text "Bot: ..."] carriage_return;
            HttpPost API_URL (build_payload history user_input);
            Print [Text (newline ++ "Error: Server returned status "); Int 500] newline;
            Print [Text "Detail: "; Value (JStr (Api.str_of_error e))] newline;
            rule],
           history, Continue)).
Proof.
  split.
  - intros http log.
    destruct (serve_chat_outcome tokenizer model http request log) as [log' H].
    rewrite Hraises in H. eauto.
  - intros history user_input log Hrequest.
    apply (turn_on_error_status history user_input _ 500
             [("detail", JStr (Api.str_of_error e))]); [| reflexivity].
    unfold System.server. rewrite Hrequest.
    destruct (serve_chat_outcome tokenizer model System.post_chat request log) as [log' H].
    rewrite Hraises in H. rewrite H. reflexivity.
Qed.

Lemma chat_failure_is_500_and_history_kept_witness :
  (forall http log, exists log',
      Api.serve_chat Toy.byte_tokenizer Toy.failing_model http Toy.hello log
      = (inr {| Api.status_code := 500;
                Api.body := JObj [("detail", JStr "out of memory")] |}, log'))
  /\ turn [] "Hello" (System.server Toy.byte_tokenizer Toy.failing_model [])
     = ([Print [Text "Bot: ..."] carriage_return;
         HttpPost API_URL (build_payload [] "Hello");
         Print [Text (newline ++ "Error: Server returned status "); Int 500] newline;
         Print [Text "Detail: "; Value (JStr "out of memory")] newline;
         rule],
        [], Continue).
Proof.
  destruct (chat_failure_is_500_and_history_kept Toy.byte_tokenizer Toy.failing_model
              Toy.hello {| Api.str_of_error := "out of memory" |} eq_refl) as [Hserver Hclient].
  split.
  - exact Hserver.
  - exact (Hclient [] "Hello" [] eq_refl).
Defined.

(** Each stage of the [try] block is a way to raise. *)
Lemma generation_failure_raises (tokenizer : Api.Tokenizer) (model : Api.Model)
    (request : Api.ChatRequest) (input_ids mask : Api.Tensor) (e : Api.PyError) :
  fst (Api.tokenize tokenizer (Api.build_messages request) []) = inr input_ids ->
  Api.attention_mask_of input_ids (Api.pad_token_id tokenizer) = inr mask ->
  Api.generate model input_ids mask (Api.max_length request) (Api.temperature request)
    (Api.eos_token_id tokenizer) = inl e ->
  fst (Api.chat_body tokenizer model request []) = inl e.
Proof. intros Hids Hmask Hgen. now rewrite chat_body_outcome, Hids, Hmask, Hgen. Qed.

Lemma tokenization_failure_raises (tokenizer : Api.Tokenizer) (model : Api.Model)
    (request : Api.ChatRequest) (e : Api.PyError) :
  fst (Api.tokenize tokenizer (Api.build_messages request) []) = inl e ->
  fst (Api.chat_body tokenizer model request []) = inl e.
Proof. intros Hids. now rewrite chat_body_outcome, Hids. Qed.

Lemma decoding_failure_raises (tokenizer : Api.Tokenizer) (model : Api.Model)
    (request : Api.ChatRequest) (input_ids mask outputs : Api.Tensor) (e : Api.PyError) :
  fst (Api.tokenize tokenizer (Api.build_messages request) []) = inr input_ids ->
  Api.attention_mask_of input_ids (Api.pad_token_id tokenizer) = inr mask ->
  Api.generate model input_ids mask (Api.max_length request) (Api.temperature request)
    (Api.eos_token_id tokenizer) = inr outputs ->
  Api.decode tokenizer (skipn (length input_ids) outputs) = inl e ->
  fst (Api.chat_body tokenizer model request []) = inl e.
Proof.
  intros Hids Hmask Hgen Hdec. now rewrite chat_body_outcome, Hids, Hmask, Hgen, Hdec.
Qed.

(** C2 as stated does not hold: the first request asks for 500 new
    tokens, not 200, and the text of a 200 answer can be empty. *)
Lemma first_turn_is_not_200_and_nonempty :
  build_payload [] "Hello"
  <> {| message := "Hello"; history := []; max_length := 200;
        temperature := (7 # 10)%Q |}
  /\ ~ (forall tokenizer model log, exists text log',
           Api.serve_chat tokenizer model System.post_chat Toy.hello log
           = (inr {| Api.status_code := 200;
                     Api.body := JObj [("response", JStr text)] |}, log')
           /\ text <> "").
Proof.
  split.
  - intros H. apply (f_equal max_length) in H. discriminate.
  - intros H.
    destruct (H Toy.byte_tokenizer Toy.silent_model []) as (text & log' & Hrun & Hne).
    vm_compute in Hrun. inversion Hrun. subst text. now apply Hne.
Qed.

(** C2 (amended). On the first turn the input "Hello" is sent with an
    empty history, max_length 500 and temperature 0.7, and the service
    answers either 200 with a [response] string or 500 with a [detail]
    string. *)
Theorem first_turn_request_and_answer :
  build_payload [] "Hello"
  = {| message := "Hello"; history := []; max_length := 500;
       temperature := (7 # 10)%Q |}
  /\ (forall reachable post,
        In (HttpPost API_URL (build_payload [] "Hello"))
           (fst (fst (main reachable [(Line "Hello", post)]))))
  /\ (forall tokenizer model log, exists log',
        (exists text,
            Api.serve_chat tokenizer model System.post_chat Toy.hello log
            = (inr {| Api.status_code := 200;
                      Api.body := JObj [("response", JStr text)] |}, log'))
        \/ (exists detail,
              Api.serve_chat tokenizer model System.post_chat Toy.hello log
              = (inr {| Api.status_code := 500;
                        Api.body := JObj [("detail", JStr detail)] |}, log'))).
Proof.
  split; [reflexivity |]. split.
  - intros reachable post. unfold main. cbn [loop].
    change (iteration [] (Line "Hello") post)
      with (let '(events, h, c) := turn [] "Hello" post in (Input "You: " :: events, h, c)).
    assert (Hsent : exists rest h c,
               turn [] "Hello" post
               = (Print [Text "Bot: ..."] carriage_return
                  :: HttpPost API_URL (build_payload [] "Hello") :: rest, h, c)).
    { unfold turn. destruct (post (build_payload [] "Hello")) as [status body | err |].
      - destruct (is_success status); [destruct (bot_response_of body) |]; cbn; eauto.
      - cbn; eauto.
      - cbn; eauto. }
    destruct Hsent as (rest & h & c & ->).
    destruct c; destruct reachable; cbn; intuition.
  - intros tokenizer model log.
    destruct (serve_chat_outcome tokenizer model System.post_chat Toy.hello log) as [log' H].
    exists log'.
    destruct (fst (Api.chat_body tokenizer model Toy.hello [])) as [e | v] eqn:Hbody.
    + right. eauto.
    + left. destruct (chat_body_returns_response _ _ _ _ _ Hbody) as [text ->]. eauto.
Qed.

Example first_turn_with_silent_model :
  fst (Api.serve_chat Toy.template_tokenizer Toy.silent_model System.post_chat Toy.hello [])
  = inr {| Api.status_code := 200; Api.body := JObj [("response", JStr "")] |}.
Proof. reflexivity. Qed.

Example first_turn_with_ok_model :
  fst (fst (main true [(Line "Hello", System.server Toy.byte_tokenizer Toy.ok_model [])]))
  = [print "Welcome to Gemma Chat! (Type 'quit' or 'exit' to leave, 'clear' to reset history)";
     rule; HttpGet "http://localhost:8000/"; Input "You: ";
     Print [Text "Bot: ..."] carriage_return;
     HttpPost API_URL (build_payload [] "Hello");
     Print [Text "Bot: "] ""; print "ok"; rule].
Proof. reflexivity. Qed.

End EndToEnd.

(** ** Further properties of the service *)

Section StartupProperties.

Import Startup.

(** X1. Half precision is chosen exactly when an accelerator is
    available, and CUDA is preferred to MPS when both are. *)
Theorem dtype_follows_accelerator (torch : Torch) :
  DTYPE (get_device torch)
  = (if cuda_is_available torch || mps_is_available torch then float16 else float32)
  /\ get_device torch
     = (if cuda_is_available torch then "cuda"
        else if mps_is_available torch then "mps" else "cpu")
  /\ String.eqb (get_device torch) "mps"
     = negb (cuda_is_available torch) && mps_is_available torch.
Proof.
  unfold get_device.
  destruct (cuda_is_available torch), (mps_is_available torch); repeat split.
Qed.

(** The outcome of the [try] block of the loading code. *)
Lemma load_outcome (lib : Transformers) (DEVICE : string) (log : Api.Log) :
  fst (load lib DEVICE log)
  = match tokenizer_from_pretrained lib MODEL_PATH with
    | inl _ => inl {| Api.str_of_error := "Failed to load model from models/gemma3-1b-it" |}
    | inr tokenizer =>
        match model_from_pretrained lib MODEL_PATH (DTYPE DEVICE)
                (if negb (String.eqb DEVICE "mps") then Some DEVICE else None) with
        | inl _ => inl {| Api.str_of_error := "Failed to load model from models/gemma3-1b-it" |}
        | inr model =>
            if String.eqb DEVICE "mps" then
              match to lib model DEVICE with
              | inl _ =>
                  inl {| Api.str_of_error := "Failed to load model from models/gemma3-1b-it" |}
              | inr moved => inr (tokenizer, moved)
              end
            else inr (tokenizer, model)
        end
    end.
Proof.
  unfold load, Api.try_except, Api.call, Api.logger, Api.raise. cbn [bind ret Api.Monad_M].
  destruct (tokenizer_from_pretrained lib MODEL_PATH) as [e | tokenizer]; [reflexivity |].
  destruct (model_from_pretrained lib MODEL_PATH (DTYPE DEVICE)
              (if negb (String.eqb DEVICE "mps") then Some DEVICE else None))
    as [e | model]; [reflexivity |].
  destruct (String.eqb DEVICE "mps"); [| reflexivity].
  destruct (to lib model DEVICE); reflexivity.
Qed.

(** The step of loading that fails first, with its exception. *)
Lemma load_failure_cause (lib : Transformers) (DEVICE : string) (log : Api.Log)
    (e : Api.PyError) :
  fst (load lib DEVICE log) = inl e ->
  exists cause,
    (tokenizer_from_pretrained lib MODEL_PATH = inl cause
     \/ (exists tokenizer,
           tokenizer_from_pretrained lib MODEL_PATH = inr tokenizer
           /\ model_from_pretrained lib MODEL_PATH (DTYPE DEVICE)
                (if negb (String.eqb DEVICE "mps") then Some DEVICE else None)
              = inl cause)
     \/ (exists tokenizer model,
           tokenizer_from_pretrained lib MODEL_PATH = inr tokenizer
           /\ model_from_pretrained lib MODEL_PATH (DTYPE DEVICE) None = inr model
           /\ DEVICE = "mps"
           /\ to lib model DEVICE = inl cause))
    /\ load lib DEVICE log
       = (inl {| Api.str_of_error := "Failed to load model from models/gemma3-1b-it" |},
          log ++ [{| Api.level := Api.INFO;
                     Api.msg := [Api.Text "Loading model from "; Api.Text MODEL_PATH;
                                 Api.Text " on "; Api.Text DEVICE; Api.Text " (DTYPE: ";
                                 Api.Text (dtype_text (DTYPE DEVICE)); Api.Text ")..."] |};
                  {| Api.level := Api.CRITICAL;
                     Api.msg := [Api.Text "Error loading model: "; Api.ErrorText cause] |};
                  {| Api.level := Api.DEBUG; Api.msg := [Api.Traceback cause] |}]).
Proof.
  unfold load, Api.try_except, Api.call, Api.logger, Api.raise. cbn [bind ret Api.Monad_M].
  destruct (tokenizer_from_pretrained lib MODEL_PATH) as [e1 | tokenizer].
  { intros _. exists e1. split; [now left |].
    cbn. now rewrite <- !app_assoc. }
  destruct (model_from_pretrained lib MODEL_PATH (DTYPE DEVICE)
              (if negb (String.eqb DEVICE "mps") then Some DEVICE else None))
    as [e2 | model] eqn:Hmodel.
  { intros _. exists e2. split; [right; left; eauto |].
    cbn. now rewrite <- !app_assoc. }
  destruct (String.eqb_spec DEVICE "mps") as [Hmps | Hother].
  - destruct (to lib model DEVICE) as [e3 | moved] eqn:Hto.
    + intros _. exists e3. split.
      * right. right. exists tokenizer, model. cbn in Hmodel. auto.
      * cbn. now rewrite <- !app_assoc.
    + cbn. discriminate.
  - cbn. discriminate.
Qed.

(** X2. When loading fails, the start of the service raises an error
    whose text names the model path and not the cause, whatever step
    failed and on whatever device; and the log gains exactly three
    records: the announcement, a CRITICAL record with the exception of
    the step that failed first, and a DEBUG record with its traceback. *)
Theorem load_failure_is_uniform (lib : Transformers) (DEVICE : string) (log : Api.Log)
    (e : Api.PyError)
    (Hfails : fst (load lib DEVICE log) = inl e) :
  e = {| Api.str_of_error := "Failed to load model from models/gemma3-1b-it" |}
  /\ exists cause,
       (tokenizer_from_pretrained lib MODEL_PATH = inl cause
        \/ (exists tokenizer,
              tokenizer_from_pretrained lib MODEL_PATH = inr tokenizer
              /\ model_from_pretrained lib MODEL_PATH (DTYPE DEVICE)
                   (if negb (String.eqb DEVICE "mps") then Some DEVICE else None)
                 = inl cause)
        \/ (exists tokenizer model,
              tokenizer_from_pretrained lib MODEL_PATH = inr tokenizer
              /\ model_from_pretrained lib MODEL_PATH (DTYPE DEVICE) None = inr model
              /\ DEVICE = "mps"
              /\ to lib model DEVICE = inl cause))
       /\ snd (load lib DEVICE log)
          = log ++ [{| Api.level := Api.INFO;
                       Api.msg := [Api.Text "Loading model from "; Api.Text MODEL_PATH;
                                   Api.Text " on "; Api.Text DEVICE; Api.Text " (DTYPE: ";
                                   Api.Text (dtype_text (DTYPE DEVICE)); Api.Text ")..."] |};
                    {| Api.level := Api.CRITICAL;
                       Api.msg := [Api.Text "Error loading model: "; Api.ErrorText cause] |};
                    {| Api.level := Api.DEBUG; Api.msg := [Api.Traceback cause] |}].
Proof.
  destruct (load_failure_cause lib DEVICE log e Hfails) as (cause & Hcause & Hload).
  rewrite Hload in Hfails |- *. cbn [fst snd] in *.
  split; [congruence |].
  exists cause. split; [exact Hcause | reflexivity].
Qed.

Lemma load_failure_is_uniform_witness :
  {| Api.str_of_error := "Failed to load model from models/gemma3-1b-it" |}
  = {| Api.str_of_error := "Failed to load model from models/gemma3-1b-it" |}
  /\ exists cause,
       (tokenizer_from_pretrained Toy.broken_library MODEL_PATH = inl cause
        \/ (exists tokenizer,
              tokenizer_from_pretrained Toy.broken_library MODEL_PATH = inr tokenizer
              /\ model_from_pretrained Toy.broken_library MODEL_PATH (DTYPE "cpu")
                   (if negb (String.eqb "cpu" "mps") then Some "cpu" else None)
                 = inl cause)
        \/ (exists tokenizer model,
              tokenizer_from_pretrained Toy.broken_library MODEL_PATH = inr tokenizer
              /\ model_from_pretrained Toy.broken_library MODEL_PATH (DTYPE "cpu") None
                 = inr model
              /\ "cpu" = "mps"
              /\ to Toy.broken_library model "cpu" = inl cause))
       /\ snd (load Toy.broken_library "cpu" [])
          = [] ++ [{| Api.level := Api.INFO;
                      Api.msg := [Api.Text "Loading model from "; Api.Text MODEL_PATH;
                                  Api.Text " on "; Api.Text "cpu"; Api.Text " (DTYPE: ";
                                  Api.Text (dtype_text (DTYPE "cpu")); Api.Text ")..."] |};
                   {| Api.level := Api.CRITICAL;
                      Api.msg := [Api.Text "Error loading model: "; Api.ErrorText cause] |};
                   {| Api.level := Api.DEBUG; Api.msg := [Api.Traceback cause] |}].
Proof.
  exact (load_failure_is_uniform Toy.broken_library "cpu" [] _ eq_refl).
Defined.

Example broken_library_log :
  snd (load Toy.broken_library "cpu" [])
  = [{| Api.level := Api.INFO;
        Api.msg := [Api.Text "Loading model from "; Api.Text "models/gemma3-1b-it";
                    Api.Text " on "; Api.Text "cpu"; Api.Text " (DTYPE: ";
                    Api.Text "torch.float32"; Api.Text ")..."] |};
     {| Api.level := Api.CRITICAL;
        Api.msg := [Api.Text "Error loading model: ";
                    Api.ErrorText {| Api.str_of_error := "no such file" |}] |};
     {| Api.level := Api.DEBUG;
        Api.msg := [Api.Traceback {| Api.str_of_error := "no such file" |}] |}].
Proof. reflexivity. Qed.

End StartupProperties.

Section ServiceProperties.

Variables (tokenizer : Api.Tokenizer) (model : Api.Model).

(** X4. The answer holds the new tokens only: when generation returns
    the input followed by new tokens, the response text is the decoding
    of the new tokens, and the prompt is not decoded into it. *)
Theorem response_decodes_new_tokens_only
    (http : Api.Request) (request : Api.ChatRequest) (log : Api.Log)
    (input_ids mask new_tokens : Api.Tensor) (text : string)
    (Hids : fst (Api.tokenize tokenizer (Api.build_messages request) []) = inr input_ids)
    (Hmask : Api.attention_mask_of input_ids (Api.pad_token_id tokenizer) = inr mask)
    (Hgen : Api.generate model input_ids mask (Api.max_length request)
              (Api.temperature request) (Api.eos_token_id tokenizer)
            = inr (input_ids ++ new_tokens))
    (Hdec : Api.decode tokenizer new_tokens = inr text) :
  fst (Api.serve_chat tokenizer model http request log)
  = inr {| Api.status_code := 200; Api.body := JObj [("response", JStr text)] |}.
Proof.
  destruct (serve_chat_outcome tokenizer model http request log) as [log' ->].
  cbn [fst]. rewrite chat_body_outcome, Hids, Hmask, Hgen.
  rewrite skipn_app, skipn_all, Nat.sub_diag. cbn [skipn app].
  now rewrite Hdec.
Qed.

(** X5. The chat endpoint never lets an exception out: whatever the
    tokenizer, the model and the request, it answers 200 with a
    [response] string or 500 with a [detail] string. *)
Theorem serve_chat_answers_200_or_500
    (http : Api.Request) (request : Api.ChatRequest) (log : Api.Log) :
  exists response log',
    Api.serve_chat tokenizer model http request log = (inr response, log')
    /\ ((Api.status_code response = 200
         /\ exists text, Api.body response = JObj [("response", JStr text)])
        \/ (Api.status_code response = 500
            /\ exists detail, Api.body response = JObj [("detail", JStr detail)])).
Proof.
  destruct (serve_chat_outcome tokenizer model http request log) as [log' H].
  destruct (fst (Api.chat_body tokenizer model request [])) as [e | v] eqn:Hbody.
  - eexists _, log'. split; [exact H |]. right. cbn. eauto.
  - destruct (chat_body_returns_response _ _ _ _ _ Hbody) as [text ->].
    eexists _, log'. split; [exact H |]. left. cbn. eauto.
Qed.

Lemma errors_app (l1 l2 : Api.Log) : errors (l1 ++ l2) = (errors l1 + errors l2)%nat.
Proof. unfold errors. now rewrite filter_app, length_app. Qed.

Lemma route_chat_errors (request : Api.ChatRequest) (log : Api.Log) :
  errors (snd (Api.route (Api.chat tokenizer model request) log))
  = (errors log
     + match fst (Api.chat_body tokenizer model request []) with
       | inl _ => 2
       | inr _ => 0
       end)%nat.
Proof.
  rewrite chat_body_outcome, tokenize_outcome.
  unfold Api.route, Api.chat, Api.chat_body, Api.tokenize.
  unfold Api.try_except, Api.logger, Api.call, Api.raise.
  destruct (Api.apply_chat_template tokenizer) as [template |]; cbn [bind ret Api.Monad_M].
  - destruct (template (Api.build_messages request)) as [e | out]; cbn [fst snd];
      [rewrite !errors_app; cbn; lia |].
    destruct (Api.attention_mask_of (Api.input_ids_of out) (Api.pad_token_id tokenizer))
      as [e | mask]; cbn [fst snd]; [rewrite !errors_app; cbn; lia |].
    destruct (Api.generate model (Api.input_ids_of out) mask (Api.max_length request)
                (Api.temperature request) (Api.eos_token_id tokenizer))
      as [e | outputs]; cbn [fst snd]; [rewrite !errors_app; cbn; lia |].
    destruct (Api.decode tokenizer (skipn (length (Api.input_ids_of out)) outputs));
      cbn [fst snd]; rewrite !errors_app; cbn; lia.
  - destruct (Api.encode tokenizer (Api.context_of (Api.build_messages request)))
      as [e | ids]; cbn [fst snd]; [rewrite !errors_app; cbn; lia |].
    destruct (Api.attention_mask_of ids (Api.pad_token_id tokenizer))
      as [e | mask]; cbn [fst snd]; [rewrite !errors_app; cbn; lia |].
    destruct (Api.generate model ids mask (Api.max_length request)
                (Api.temperature request) (Api.eos_token_id tokenizer))
      as [e | outputs]; cbn [fst snd]; [rewrite !errors_app; cbn; lia |].
    destruct (Api.decode tokenizer (skipn (length ids) outputs));
      cbn [fst snd]; rewrite !errors_app; cbn; lia.
Qed.

(** X6. A chat request that fails adds exactly two ERROR records to the
    server log (the message and the traceback); one that succeeds adds
    none. *)
Theorem error_records_tell_failure
    (http : Api.Request) (request : Api.ChatRequest) (log : Api.Log) :
  errors (snd (Api.serve_chat tokenizer model http request log))
  = (errors log
     + match fst (Api.chat_body tokenizer model request []) with
       | inl _ => 2
       | inr _ => 0
       end)%nat.
Proof.
  unfold Api.serve_chat.
  pose proof (route_chat_errors request (log ++ [incoming http])) as Herr.
  destruct (route_chat_outcome tokenizer model request (log ++ [incoming http]))
    as [log1 Hroute].
  rewrite (log_requests_runs_returning_handler_once http
             (fun _ => Api.route (Api.chat tokenizer model request)) log log1 _ Hroute).
  rewrite Hroute in Herr. cbn [snd] in Herr |- *.
  rewrite errors_app, Herr, errors_app. cbn. lia.
Qed.

End ServiceProperties.

Section PromptProperties.

(** X7. What the model is given for a client turn: the request the
    service works on has the client's input as message, 500 as
    max_length and 0.7 as temperature, and its message list is the last
    10 entries of the client's history followed by the input as a user
    entry, 11 entries at most. *)
Theorem model_sees_last_10_then_input (history : list Message) (user_input : string) :
  let request := Api.validate (System.body_of (Chat.build_payload history user_input)) in
  Api.message request = user_input
  /\ Api.max_length request = 500
  /\ Api.temperature request = (7 # 10)%Q
  /\ Api.build_messages request
     = slice_last 10 history ++ [{| role := "user"; content := user_input |}]
  /\ (length (Api.build_messages request) <= 11)%nat.
Proof.
  intros request.
  assert (E : Api.build_messages request
              = slice_last 10 history ++ [{| role := "user"; content := user_input |}]).
  { unfold Api.build_messages. now rewrite fold_append_copy. }
  repeat split; try exact E.
  rewrite E, length_app, length_slice_last. cbn [length]. lia.
Qed.

Lemma context_of_snoc (messages : list Message) (m : Message) :
  messages <> [] ->
  Api.context_of (messages ++ [m])
  = (Api.context_of messages ++ newline ++ role m ++ ": " ++ content m)%string.
Proof.
  unfold Api.context_of.
  induction messages as [| a rest IH]; [congruence | intros _].
  destruct rest as [| b rest].
  - reflexivity.
  - cbn [app map str_join] in IH |- *.
    rewrite IH by discriminate.
    now rewrite !append_assoc.
Qed.

(** X8. The fallback prompt of a request is the transcript of its
    history, a newline when the history is not empty, and the line
    [user: message] at its end; nothing follows the new message. *)
Theorem fallback_prompt_ends_with_user_line (request : Api.ChatRequest) :
  Api.context_of (Api.build_messages request)
  = ((match Api.history request with
      | [] => ""
      | _ :: _ => Api.context_of (Api.history request) ++ newline
      end) ++ "user: " ++ Api.message request)%string.
Proof.
  unfold Api.build_messages. rewrite fold_append_copy. cbn [app].
  destruct (Api.history request) as [| m rest] eqn:Hh.
  - reflexivity.
  - rewrite context_of_snoc by discriminate.
    cbn [role content]. now rewrite !append_assoc.
Qed.

(** X9. The health check answers 200 with the same body whatever the
    request and the state of the log, runs its handler once, and leaves
    three records: the request, the call and the status. *)
Theorem root_answers_ok (http : Api.Request) (log : Api.Log) :
  Api.log_requests http (fun _ => Api.route Api.root) log
  = (inr {| Api.status_code := 200;
            Api.body := JObj [("status", JStr "ok"); ("model", JStr "gemma3-1b-it")] |},
     log ++ [incoming http;
             {| Api.level := Api.DEBUG; Api.msg := [Api.Text "Root endpoint called"] |};
             {| Api.level := Api.INFO;
                Api.msg := [Api.Text "Request completed with status: "; Api.Int 200] |}]).
Proof.
  unfold Api.log_requests, Api.route, Api.root, Api.try_except, Api.logger, incoming.
  cbn [bind ret Api.Monad_M]. cbn.
  now rewrite <- !app_assoc.
Qed.

End PromptProperties.

Section ServiceWitnesses.

Lemma response_decodes_new_tokens_only_witness :
  fst (Api.serve_chat Toy.byte_tokenizer Toy.ok_model System.post_chat Toy.hello [])
  = inr {| Api.status_code := 200; Api.body := JObj [("response", JStr "ok")] |}.
Proof.
  apply (response_decodes_new_tokens_only Toy.byte_tokenizer Toy.ok_model
           System.post_chat Toy.hello []
           [117; 115; 101; 114; 58; 32; 72; 101; 108; 108; 111]
           [1; 1; 1; 1; 1; 1; 1; 1; 1; 1; 1] [111; 107] "ok");
    reflexivity.
Defined.

End ServiceWitnesses.

(** ** Further properties of the client *)

Section TextProperties.

Import Chat.

Lemma lstrip_all_space (s : string) : all_space s = true -> lstrip s = "".
Proof.
  induction s as [| c rest IH]; [reflexivity |].
  cbn. destruct (is_space c); [exact IH | discriminate].
Qed.

Lemma all_space_of_lstrip (s : string) : all_space (lstrip s) = true -> all_space s = true.
Proof.
  induction s as [| c rest IH]; [reflexivity |].
  cbn. destruct (is_space c) eqn:Hc.
  - exact IH.
  - cbn. now rewrite Hc.
Qed.

Lemma all_space_of_rstrip (s : string) : rstrip s = "" -> all_space s = true.
Proof.
  induction s as [| c rest IH]; [reflexivity |].
  cbn. destruct (rstrip rest) as [| k ks].
  - destruct (is_space c); [intros _; now apply IH | discriminate].
  - discriminate.
Qed.

Lemma strip_empty_iff (s : string) : strip s = "" <-> all_space s = true.
Proof.
  unfold strip. split.
  - intros H. now apply all_space_of_lstrip, all_space_of_rstrip.
  - intros H. now rewrite lstrip_all_space.
Qed.

Lemma lstrip_idempotent (s : string) : lstrip (lstrip s) = lstrip s.
Proof.
  induction s as [| c rest IH]; [reflexivity |].
  cbn. destruct (is_space c) eqn:Hc; [exact IH |].
  cbn. now rewrite Hc.
Qed.

Lemma rstrip_cons (c : ascii) (rest : string) :
  rstrip (String c rest)
  = match rstrip rest with
    | EmptyString => if is_space c then EmptyString else String c EmptyString
    | kept => String c kept
    end.
Proof. reflexivity. Qed.

Lemma rstrip_idempotent (s : string) : rstrip (rstrip s) = rstrip s.
Proof.
  induction s as [| c rest IH]; [reflexivity |].
  rewrite rstrip_cons. destruct (rstrip rest) as [| k ks] eqn:Hr.
  - destruct (is_space c) eqn:Hc; [reflexivity |].
    cbn. now rewrite Hc.
  - rewrite rstrip_cons, IH. reflexivity.
Qed.

Lemma lstrip_rstrip (s : string) : lstrip (rstrip s) = rstrip (lstrip s).
Proof.
  induction s as [| c rest IH]; [reflexivity |].
  rewrite rstrip_cons. cbn [lstrip]. destruct (is_space c) eqn:Hc.
  - rewrite <- IH. destruct (rstrip rest) as [| k ks]; [reflexivity |].
    cbn [lstrip]. now rewrite Hc.
  - rewrite rstrip_cons. destruct (rstrip rest) as [| k ks]; cbn [lstrip]; now rewrite Hc.
Qed.

Lemma strip_idempotent (s : string) : strip (strip s) = strip s.
Proof.
  unfold strip.
  now rewrite lstrip_rstrip, lstrip_idempotent, rstrip_idempotent.
Qed.

End TextProperties.

Section TurnProperties.

Import Chat.

Lemma posts_app (e1 e2 : list Event) : posts (e1 ++ e2) = (posts e1 + posts e2)%nat.
Proof. unfold posts. now rewrite filter_app, length_app. Qed.

Lemma turn_posts_once (history : list Message) (user_input : string)
    (post : Payload -> PostResult) :
  posts (fst (fst (turn history user_input post))) = 1%nat.
Proof.
  unfold turn, report_status.
  destruct (post (build_payload history user_input)) as [status body | err |];
    [| reflexivity | reflexivity].
  destruct (is_success status).
  - destruct (bot_response_of body); reflexivity.
  - destruct body as [[| | | | | | members] |]; reflexivity.
Qed.

(** X10. A chat turn sends exactly one request, whatever comes back: a
    reply, an error status, a body that cannot be read, a transport
    failure or an interrupt; and it is the request built from the
    history the turn starts with. *)
Theorem turn_sends_exactly_one_request (history : list Message) (user_input : string)
    (post : Payload -> PostResult) :
  posts (fst (fst (turn history user_input post))) = 1%nat
  /\ In (HttpPost API_URL (build_payload history user_input))
        (fst (fst (turn history user_input post))).
Proof.
  split; [apply turn_posts_once |].
  unfold turn.
  destruct (post (build_payload history user_input)) as [status body | err |];
    [| cbn; tauto | cbn; tauto].
  destruct (is_success status); [destruct (bot_response_of body) |]; cbn; tauto.
Qed.

(** X11. What a turn does to the history.  When the server answers with
    a 2xx status and a JSON object whose [response] is a string (the
    empty string when the member is missing), the history becomes the
    update with the input and the stripped response; this is stated for
    a response of ASCII text, where [strip] is Python's.  In every other
    case (error status, body that is not JSON or not an object, response
    that is not a string, transport failure, interrupt) the history stays
    as it was. *)
Theorem history_changes_only_on_success (history : list Message) (user_input : string)
    (post : Payload -> PostResult) :
  (forall status members s,
      post (build_payload history user_input) = Response status (Some (JObj members)) ->
      is_success status = true ->
      dict_get members "response" (JStr "") = JStr s ->
      ascii_text s = true ->
      snd (fst (turn history user_input post))
      = update_history history user_input (strip s))
  /\ ((forall status members s,
         post (build_payload history user_input) = Response status (Some (JObj members)) ->
         is_success status = true ->
         dict_get members "response" (JStr "") = JStr s ->
         False) ->
      snd (fst (turn history user_input post)) = history).
Proof.
  split.
  - intros status members s Hpost Hstatus Hget _.
    unfold turn, bot_response_of. now rewrite Hpost, Hstatus, Hget.
  - intros Hnone. unfold turn.
    destruct (post (build_payload history user_input)) as [status body | err |] eqn:Hpost;
      [| reflexivity | reflexivity].
    destruct (is_success status) eqn:Hstatus; [| reflexivity].
    destruct body as [[| | | | | | members] |]; try reflexivity.
    unfold bot_response_of.
    destruct (dict_get members "response" (JStr "")) eqn:Hget; try reflexivity.
    exfalso. exact (Hnone status members s eq_refl Hstatus Hget).
Qed.

Lemma history_changes_only_on_success_witness :
  snd (fst (turn Toy.twelve "more"
              (fun _ => Response 200 (Some (JObj [("response", JStr " sure ")])))))
  = update_history Toy.twelve "more" "sure"
  /\ snd (fst (turn Toy.twelve "more" (fun _ => Response 200 (Some (JObj [("response", JInt 3)])))))
     = Toy.twelve.
Proof.
  split.
  - apply (proj1 (history_changes_only_on_success Toy.twelve "more"
                    (fun _ => Response 200 (Some (JObj [("response", JStr " sure ")]))))
             200 [("response", JStr " sure ")] " sure "); reflexivity.
  - apply (proj2 (history_changes_only_on_success Toy.twelve "more"
                    (fun _ => Response 200 (Some (JObj [("response", JInt 3)]))))).
    intros status members s [= _ <-] _ Hget. discriminate.
Defined.

Lemma history_cases_of_turn (history : list Message) (user_input : string)
    (post : Payload -> PostResult) :
  snd (fst (turn history user_input post)) = history
  \/ exists s, snd (fst (turn history user_input post))
               = update_history history user_input (strip s).
Proof.
  unfold turn.
  destruct (post (build_payload history user_input)) as [status body | err |];
    [| left; reflexivity | left; reflexivity].
  destruct (is_success status); [| left; reflexivity].
  destruct body as [[| | | | | | members] |]; try (left; reflexivity).
  unfold bot_response_of.
  destruct (dict_get members "response" (JStr "")); try (left; reflexivity).
  right. eexists. reflexivity.
Qed.

Lemma dict_get_missing (members : list (string * json)) (key : string) (default : json) :
  (forall v, ~ In (key, v) members) -> dict_get members key default = default.
Proof.
  induction members as [| [k v] rest IH]; intros Hmissing; [reflexivity |].
  cbn. destruct (String.eqb_spec k key) as [-> | Hne].
  - exfalso. apply (Hmissing v). now left.
  - apply IH. intros v' Hin. apply (Hmissing v'). now right.
Qed.

(** X12. A 2xx answer whose JSON object has no [response] member counts
    as an empty reply: the turn prints an empty line and records the
    input with an assistant entry of empty content. *)
Theorem missing_response_is_empty_reply (history : list Message) (user_input : string)
    (post : Payload -> PostResult) (status : Z) (members : list (string * json))
    (Hpost : post (build_payload history user_input) = Response status (Some (JObj members)))
    (Hstatus : is_success status = true)
    (Hmissing : forall v, ~ In ("response", v) members) :
  turn history user_input post
  = ([Print [Text "Bot: ..."] carriage_return;
      HttpPost API_URL (build_payload history user_input);
      Print [Text "Bot: "] ""; print ""; rule],
     update_history history user_input "", Continue).
Proof.
  unfold turn, bot_response_of. rewrite Hpost, Hstatus.
  now rewrite (dict_get_missing members "response" (JStr "") Hmissing).
Qed.

Lemma missing_response_is_empty_reply_witness :
  turn Toy.twelve "more" (fun _ => Response 200 (Some (JObj [("text", JStr "hi")])))
  = ([Print [Text "Bot: ..."] carriage_return;
      HttpPost API_URL (build_payload Toy.twelve "more");
      Print [Text "Bot: "] ""; print ""; rule],
     update_history Toy.twelve "more" "", Continue).
Proof.
  apply (missing_response_is_empty_reply Toy.twelve "more" _ 200 [("text", JStr "hi")]).
  - reflexivity.
  - reflexivity.
  - intros v [H | []]. discriminate.
Defined.

Lemma update_history_suffix_form
    (history : list Message) (user_input bot_response : string) :
  update_history history user_input bot_response
  = slice_last 18 history ++ [{| role := "user"; content := user_input |};
                              {| role := "assistant"; content := bot_response |}].
Proof.
  rewrite update_history_is_slice. unfold slice_last.
  rewrite length_app. cbn [length].
  replace (length history + 2 - 20)%nat with (length history - 18)%nat by lia.
  rewrite skipn_app.
  replace (length history - 18 - length history)%nat with 0%nat by lia.
  reflexivity.
Qed.

(** X13. The updated history is the last 18 entries of the old one
    followed by the new pair: the new pair is never cut, a history of
    at most 18 entries loses nothing, and a full one loses its oldest
    pair only. *)
Theorem update_history_keeps_last_18_and_pair
    (history : list Message) (user_input bot_response : string) :
  let pair := [{| role := "user"; content := user_input |};
               {| role := "assistant"; content := bot_response |}] in
  update_history history user_input bot_response = slice_last 18 history ++ pair
  /\ ((length history <= 18)%nat ->
      update_history history user_input bot_response = history ++ pair)
  /\ (length history = 20%nat ->
      update_history history user_input bot_response = skipn 2 history ++ pair).
Proof.
  intros pair. rewrite update_history_suffix_form. fold pair. repeat split.
  - intros Hshort. now rewrite slice_last_short.
  - intros Hfull. unfold slice_last. now rewrite Hfull.
Qed.

Lemma update_history_keeps_last_18_and_pair_witness :
  update_history Toy.twelve "m" "n" = Toy.twelve ++ [Toy.user "m"; Toy.assistant "n"]
  /\ update_history Toy.twenty "m" "n"
     = skipn 2 Toy.twenty ++ [Toy.user "m"; Toy.assistant "n"].
Proof.
  split.
  - apply (proj1 (proj2 (update_history_keeps_last_18_and_pair Toy.twelve "m" "n"))).
    cbn. lia.
  - apply (proj2 (proj2 (update_history_keeps_last_18_and_pair Toy.twenty "m" "n"))).
    reflexivity.
Defined.

End TurnProperties.

Section LoopProperties.

Import Chat.

(** X14. Input of blanks only is ignored: the iteration is the prompt
    alone, with the history kept, no request sent and the loop going on.
    For a line of ASCII text the converse holds too: a line is ignored
    only if every character of it is whitespace. *)
Theorem blank_input_is_ignored (history : list Message) (text : string)
    (post : Payload -> PostResult) :
  (all_space text = true ->
   iteration history (Line text) post = ([Input "You: "], history, Continue))
  /\ (ascii_text text = true ->
      iteration history (Line text) post = ([Input "You: "], history, Continue) ->
      all_space text = true).
Proof.
  split.
  - intros Hblank. apply strip_empty_iff in Hblank.
    unfold iteration. rewrite Hblank. reflexivity.
  - intros _. rewrite <- strip_empty_iff. unfold iteration.
    destruct (String.eqb_spec (strip text) "") as [Hempty | Hne]; [trivial |].
    destruct (String.eqb (lower (strip text)) "quit" || String.eqb (lower (strip text)) "exit");
      [discriminate |].
    destruct (String.eqb (lower (strip text)) "clear"); [discriminate |].
    pose proof (turn_posts_once history (strip text) post) as Hone.
    destruct (turn history (strip text) post) as [[events history'] control].
    intros [= Hevents _ _]. rewrite Hevents in Hone. discriminate.
Qed.

Lemma blank_input_is_ignored_witness :
  iteration Toy.twelve (Line "   ") (fun _ => Interrupted)
  = ([Input "You: "], Toy.twelve, Continue)
  /\ all_space "   " = true.
Proof.
  assert (H : iteration Toy.twelve (Line "   ") (fun _ => Interrupted)
              = ([Input "You: "], Toy.twelve, Continue)).
  { apply (proj1 (blank_input_is_ignored Toy.twelve "   " (fun _ => Interrupted))).
    reflexivity. }
  split; [exact H |].
  apply (proj2 (blank_input_is_ignored Toy.twelve "   " (fun _ => Interrupted)));
    [reflexivity | exact H].
Defined.

(** X15. The words [quit] and [exit], in any letter case and with any
    blanks around them, end the loop at once: the farewell is printed,
    the history is kept, no request is sent and the rest of the script
    is not read. *)
Theorem quit_ends_the_loop (history : list Message) (text : string)
    (post : Payload -> PostResult) (rest : list (Stdin * (Payload -> PostResult)))
    (Hquit : lower (strip text) = "quit" \/ lower (strip text) = "exit") :
  loop history ((Line text, post) :: rest)
  = ([Input "You: "; print "Goodbye!"], history, Break).
Proof.
  cbn [loop]. unfold iteration.
  destruct (String.eqb_spec (strip text) "") as [Hempty | _].
  { rewrite Hempty in Hquit. destruct Hquit; discriminate. }
  destruct Hquit as [-> | ->]; reflexivity.
Qed.

Lemma quit_ends_the_loop_witness :
  loop Toy.twelve [(Line " Quit", fun _ => Interrupted); (Line "more", fun _ => Interrupted)]
  = ([Input "You: "; print "Goodbye!"], Toy.twelve, Break).
Proof.
  apply (quit_ends_the_loop Toy.twelve " Quit"). left. reflexivity.
Defined.

(** X16. The loop ends in an iteration only on the user's side: at
    [quit] or [exit], at the end of input, or at an interrupt (at the
    prompt or while waiting for the answer).  No answer of the server and
    no transport failure ends it, and the history is kept when it ends.
    Stated for typed lines of ASCII text, where [strip] and [lower] are
    Python's. *)
Theorem loop_ends_only_on_the_user_side (history history' : list Message) (stdin : Stdin)
    (post : Payload -> PostResult) (events : list Event)
    (Hascii : forall text, stdin = Line text -> ascii_text text = true)
    (Hbreak : iteration history stdin post = (events, history', Break)) :
  history' = history
  /\ (stdin = KeyboardInterrupt
      \/ stdin = EOFError
      \/ exists text,
           stdin = Line text
           /\ (lower (strip text) = "quit"
               \/ lower (strip text) = "exit"
               \/ post (build_payload history (strip text)) = Interrupted)).
Proof.
  clear Hascii. revert Hbreak. unfold iteration.
  destruct stdin as [text | |].
  - destruct (String.eqb (strip text) ""); [discriminate |].
    destruct (String.eqb_spec (lower (strip text)) "quit") as [Hq | _].
    { cbn. intros [= _ <-]. split; [reflexivity |]. right. right. exists text. tauto. }
    destruct (String.eqb_spec (lower (strip text)) "exit") as [He | _].
    { cbn. intros [= _ <-]. split; [reflexivity |]. right. right. exists text. tauto. }
    cbn [orb].
    destruct (String.eqb (lower (strip text)) "clear"); [discriminate |].
    unfold turn.
    destruct (post (build_payload history (strip text))) as [status body | err |] eqn:Hpost.
    + destruct (is_success status); [destruct (bot_response_of body) |]; discriminate.
    + discriminate.
    + intros [= _ <-]. split; [reflexivity |]. right. right. exists text. tauto.
  - intros [= _ <-]. tauto.
  - intros [= _ <-]. tauto.
Qed.

Lemma loop_ends_only_on_the_user_side_witness :
  Toy.twelve = Toy.twelve
  /\ (Line "more" = KeyboardInterrupt
      \/ Line "more" = EOFError
      \/ exists text,
           Line "more" = Line text
           /\ (lower (strip text) = "quit"
               \/ lower (strip text) = "exit"
               \/ (fun _ : Payload => Interrupted) (build_payload Toy.twelve (strip text))
                  = Interrupted)).
Proof.
  apply (loop_ends_only_on_the_user_side Toy.twelve Toy.twelve (Line "more")
           (fun _ => Interrupted)
           [Input "You: "; Print [Text "Bot: ..."] carriage_return;
            HttpPost API_URL (build_payload Toy.twelve "more");
            print (newline ++ "Goodbye!")]).
  - intros text [= <-]. reflexivity.
  - reflexivity.
Defined.

(** X17. A session can be cut anywhere: playing two scripts one after
    the other is playing the first and, unless it ended the loop, the
    second from the history the first left; after the end of the loop
    nothing more is read or printed. *)
Theorem loop_app (history : list Message) (script1 script2 : list (Stdin * (Payload -> PostResult))) :
  loop history (script1 ++ script2)
  = match loop history script1 with
    | (events1, history1, Break) => (events1, history1, Break)
    | (events1, history1, Continue) =>
        let '(events2, history2, control) := loop history1 script2 in
        (events1 ++ events2, history2, control)
    end.
Proof.
  revert history. induction script1 as [| [stdin post] rest IH]; intros history.
  - cbn. now destruct (loop history script2) as [[events2 history2] control].
  - cbn [app loop].
    destruct (iteration history stdin post) as [[events history'] [|]]; [| reflexivity].
    rewrite IH.
    destruct (loop history' rest) as [[events1 history1] [|]]; [| reflexivity].
    destruct (loop history1 script2) as [[events2 history2] control].
    now rewrite app_assoc.
Qed.

End LoopProperties.

Section RunProperties.

Import Chat.

(** What an iteration can send: nothing unless a line was typed that is
    neither blank nor a command, and then the payload built from the
    history it started with and the stripped line. *)
Lemma iteration_post_shape (history : list Message) (stdin : Stdin)
    (post : Payload -> PostResult) (url : string) (payload : Payload) :
  In (HttpPost url payload) (fst (fst (iteration history stdin post))) ->
  exists text,
    stdin = Line text
    /\ strip text <> ""
    /\ lower (strip text) <> "quit"
    /\ lower (strip text) <> "exit"
    /\ lower (strip text) <> "clear"
    /\ url = API_URL
    /\ payload = build_payload history (strip text).
Proof.
  unfold iteration, print.
  destruct stdin as [text | |];
    [| cbn; intros [H | [H | []]]; discriminate | cbn; intros [H | [H | []]]; discriminate].
  destruct (String.eqb_spec (strip text) "") as [_ | Hne].
  { cbn. intros [H | []]. discriminate. }
  destruct (String.eqb_spec (lower (strip text)) "quit") as [_ | Hq].
  { cbn. intros [H | [H | []]]; discriminate. }
  destruct (String.eqb_spec (lower (strip text)) "exit") as [_ | He].
  { cbn. intros [H | [H | []]]; discriminate. }
  cbn [orb].
  destruct (String.eqb_spec (lower (strip text)) "clear") as [_ | Hc].
  { cbn. intros [H | [H | []]]; discriminate. }
  pose proof (turn_posts_built_payload history (strip text) post url payload) as Hturn.
  destruct (turn history (strip text) post) as [[events history'] control].
  cbn in *. intros [H | H]; [discriminate |].
  destruct (Hturn H) as [-> ->].
  exists text. repeat split; assumption.
Qed.

(** The histories an iteration can leave, with the strings of a
    completed turn as they are stored. *)
Lemma iteration_history_stripped (history : list Message) (stdin : Stdin)
    (post : Payload -> PostResult) :
  let history' := snd (fst (iteration history stdin post)) in
  history' = history
  \/ history' = []
  \/ exists text s, history' = update_history history (strip text) (strip s).
Proof.
  unfold iteration.
  destruct stdin as [text | |]; try (left; reflexivity).
  destruct (String.eqb (strip text) ""); [left; reflexivity |].
  destruct (String.eqb (lower (strip text)) "quit" || String.eqb (lower (strip text)) "exit");
    [left; reflexivity |].
  destruct (String.eqb (lower (strip text)) "clear"); [right; left; reflexivity |].
  destruct (history_cases_of_turn history (strip text) post) as [H | (s & H)].
  - left. destruct (turn history (strip text) post) as [[events h] c]. exact H.
  - right. right. exists text, s.
    destruct (turn history (strip text) post) as [[events h] c]. exact H.
Qed.

(** An invariant of the history that holds at the start and is kept by
    completed turns holds for the history behind every request of a
    run, and at its end. *)
Lemma loop_run_invariant (P : list Message -> Prop)
    (Hempty : P [])
    (Hturn : forall history text s, P history ->
                                    P (update_history history (strip text) (strip s)))
    (script : list (Stdin * (Payload -> PostResult))) :
  forall history, P history ->
    P (snd (fst (loop history script)))
    /\ forall url payload,
         In (HttpPost url payload) (fst (fst (loop history script))) ->
         exists held text,
           P held
           /\ strip text <> ""
           /\ lower (strip text) <> "quit"
           /\ lower (strip text) <> "exit"
           /\ lower (strip text) <> "clear"
           /\ url = API_URL
           /\ payload = build_payload held (strip text).
Proof.
  induction script as [| [stdin post] rest IH]; intros history Hh.
  - split; [exact Hh | intros url payload []].
  - cbn [loop].
    pose proof (iteration_history_stripped history stdin post) as Hcases.
    pose proof (iteration_post_shape history stdin post) as Hposts.
    destruct (iteration history stdin post) as [[events history'] control].
    cbn in Hcases, Hposts.
    assert (Hh' : P history').
    { destruct Hcases as [-> | [-> | (text & s & ->)]]; auto. }
    assert (Hfirst : forall url payload, In (HttpPost url payload) events ->
              exists held text,
                P held /\ strip text <> "" /\ lower (strip text) <> "quit"
                /\ lower (strip text) <> "exit" /\ lower (strip text) <> "clear"
                /\ url = API_URL /\ payload = build_payload held (strip text)).
    { intros url payload Hin.
      destruct (Hposts url payload Hin) as (text & _ & H).
      exists history, text. split; [exact Hh | exact H]. }
    destruct control.
    + destruct (IH history' Hh') as [Hend Hlater].
      destruct (loop history' rest) as [[events' history''] control'].
      cbn in *. split; [exact Hend |].
      intros url payload Hin. apply in_app_or in Hin as [Hin | Hin]; auto.
    + cbn. split; [exact Hh' | exact Hfirst].
Qed.

Lemma events_of_main (reachable : bool) (script : list (Stdin * (Payload -> PostResult)))
    (url : string) (payload : Payload) :
  In (HttpPost url payload) (fst (fst (main reachable script))) ->
  In (HttpPost url payload) (fst (fst (loop [] script))).
Proof.
  unfold main.
  destruct (loop [] script) as [[events history] control]. cbn [fst].
  intros Hin. apply in_app_or in Hin as [Hin | Hin].
  - cbn in Hin. destruct Hin as [H | [H | [H | []]]]; discriminate.
  - apply in_app_or in Hin as [Hin | Hin]; [| exact Hin].
    destruct reachable; cbn in Hin; [contradiction |].
    destruct Hin as [H | [H | []]]; discriminate.
Qed.

Lemma alternating_slice_last_10 (history : list Message) :
  alternating history = true -> alternating (slice_last 10 history) = true.
Proof.
  intros H. unfold slice_last.
  destruct (alternating_even_length history H) as [n Hn]. rewrite Hn.
  replace (2 * n - 10)%nat with (2 * (n - 5))%nat by lia.
  now apply alternating_skipn_even.
Qed.

(** Every request of a loop comes from a line of the script: its
    message is that line stripped. *)
Lemma loop_posts_typed (script : list (Stdin * (Payload -> PostResult))) :
  forall history url payload,
    In (HttpPost url payload) (fst (fst (loop history script))) ->
    exists text post,
      In (Line text, post) script /\ message payload = strip text.
Proof.
  induction script as [| [stdin post] rest IH]; intros history url payload Hin.
  - destruct Hin.
  - cbn [loop] in Hin.
    pose proof (iteration_post_shape history stdin post url payload) as Hshape.
    destruct (iteration history stdin post) as [[events history'] control].
    cbn [fst] in Hshape.
    assert (Hfirst : In (HttpPost url payload) events ->
                     exists text post',
                       In (Line text, post') ((stdin, post) :: rest)
                       /\ message payload = strip text).
    { intros H. destruct (Hshape H) as (text & -> & _ & _ & _ & _ & _ & ->).
      exists text, post. split; [now left | reflexivity]. }
    destruct control.
    + specialize (IH history' url payload).
      destruct (loop history' rest) as [[events' history''] control'].
      cbn [fst] in IH, Hin.
      apply in_app_or in Hin as [Hin | Hin]; [now apply Hfirst |].
      destruct (IH Hin) as (text & post' & Hmem & Hmsg).
      exists text, post'. split; [now right | exact Hmsg].
    + cbn [fst] in Hin. now apply Hfirst.
Qed.

(** X18. Every request of a run goes to the chat endpoint with
    max_length 500 and temperature 0.7; its message is a line of the
    script without the blanks at its ends, is not empty and is none of
    the commands; and its history is a sequence of at most 5 (user,
    assistant) pairs.  Stated for scripts whose typed lines are ASCII
    text, where [strip] and [lower] are Python's. *)
Theorem every_request_is_well_formed
    (reachable : bool) (script : list (Stdin * (Payload -> PostResult)))
    (url : string) (payload : Payload)
    (Hascii : ascii_script script)
    (Hsent : In (HttpPost url payload) (fst (fst (main reachable script)))) :
  url = API_URL
  /\ max_length payload = 500
  /\ temperature payload = (7 # 10)%Q
  /\ (exists text post,
        In (Line text, post) script
        /\ message payload = strip text)
  /\ (message payload <> ""
      /\ strip (message payload) = message payload
      /\ lower (message payload) <> "quit"
      /\ lower (message payload) <> "exit"
      /\ lower (message payload) <> "clear")
  /\ (alternating (Chat.history payload) = true
      /\ (length (Chat.history payload) <= 10)%nat).
Proof.
  clear Hascii.
  apply events_of_main in Hsent.
  pose proof (loop_posts_typed script [] url payload Hsent) as Htyped.
  destruct (loop_run_invariant (fun h => alternating h = true) eq_refl
              (fun h text s => update_history_alternating h (strip text) (strip s))
              script [] eq_refl) as [_ Hposts].
  destruct (Hposts url payload Hsent)
    as (held & text & Halt & Hne & Hq & He & Hc & -> & ->).
  cbn [build_payload message max_length temperature Chat.history] in *.
  repeat split; try assumption.
  - apply strip_idempotent.
  - now apply alternating_slice_last_10.
  - rewrite length_slice_last. lia.
Qed.

Lemma every_request_is_well_formed_witness :
  let script := [(Line " Hello ", System.server Toy.byte_tokenizer Toy.ok_model [])] in
  let payload := build_payload [] "Hello" in
  API_URL = API_URL
  /\ max_length payload = 500
  /\ temperature payload = (7 # 10)%Q
  /\ (exists text post,
        In (Line text, post) script
        /\ message payload = strip text)
  /\ (message payload <> ""
      /\ strip (message payload) = message payload
      /\ lower (message payload) <> "quit"
      /\ lower (message payload) <> "exit"
      /\ lower (message payload) <> "clear")
  /\ (alternating (Chat.history payload) = true
      /\ (length (Chat.history payload) <= 10)%nat).
Proof.
  apply (every_request_is_well_formed true
           [(Line " Hello ", System.server Toy.byte_tokenizer Toy.ok_model [])]
           API_URL (build_payload [] "Hello")).
  - intros text post [[= <- _] | []]. reflexivity.
  - vm_compute. do 5 right. left. reflexivity.
Defined.

End RunProperties.

Section SessionProperties.

Import Chat.

Lemma iteration_posts_bound (history : list Message) (stdin : Stdin)
    (post : Payload -> PostResult) :
  (posts (fst (fst (iteration history stdin post)))
   <= match stdin with Line _ => 1 | _ => 0 end)%nat.
Proof.
  destruct stdin as [text | |]; [apply iteration_posts_at_most_once | cbn; lia | cbn; lia].
Qed.

Lemma loop_posts_bound (script : list (Stdin * (Payload -> PostResult))) :
  forall history, (posts (fst (fst (loop history script))) <= typed_lines script)%nat.
Proof.
  unfold typed_lines.
  induction script as [| [stdin post] rest IH]; intros history; [cbn; lia |].
  cbn [loop filter fst].
  pose proof (iteration_posts_bound history stdin post) as Hfirst.
  destruct (iteration history stdin post) as [[events history'] control].
  cbn [fst] in Hfirst.
  specialize (IH history').
  destruct control.
  - destruct (loop history' rest) as [[events' history''] control'].
    cbn [fst] in IH |- *. rewrite posts_app.
    destruct stdin; cbn [length]; lia.
  - cbn [fst]. destruct stdin; cbn [length]; lia.
Qed.

(** X19. In a whole run the client sends at most one request per line
    typed: nothing is sent at startup beyond the health check, and
    nothing is sent twice. *)
Theorem run_sends_at_most_one_request_per_line
    (reachable : bool) (script : list (Stdin * (Payload -> PostResult))) :
  (posts (fst (fst (main reachable script))) <= typed_lines script)%nat.
Proof.
  unfold main.
  pose proof (loop_posts_bound script []) as H.
  destruct (loop [] script) as [[events history] control]. cbn [fst] in H |- *.
  rewrite !posts_app. destruct reachable; cbn; lia.
Qed.

(** X20. [clear] forgets the past: after it the rest of the session runs
    as a session started afresh, whatever the history was. *)
Theorem clear_starts_afresh (history : list Message) (text : string)
    (post : Payload -> PostResult) (rest : list (Stdin * (Payload -> PostResult)))
    (Hclear : lower (strip text) = "clear") :
  loop history ((Line text, post) :: rest)
  = let '(events, history', control) := loop [] rest in
    ([Input "You: "; print "History cleared."] ++ events, history', control).
Proof.
  cbn [loop]. unfold iteration. rewrite Hclear.
  destruct (String.eqb_spec (strip text) "") as [Hempty | _].
  { rewrite Hempty in Hclear. discriminate. }
  reflexivity.
Qed.

Lemma clear_starts_afresh_witness :
  loop Toy.twelve [(Line "clear", fun _ => Interrupted);
                   (Line "Hello", System.server Toy.byte_tokenizer Toy.ok_model [])]
  = let '(events, history', control) :=
      loop [] [(Line "Hello", System.server Toy.byte_tokenizer Toy.ok_model [])] in
    ([Input "You: "; print "History cleared."] ++ events, history', control).
Proof.
  apply (clear_starts_afresh Toy.twelve "clear"). reflexivity.
Defined.

Lemma Forall_slice_last {A : Type} (P : A -> Prop) (k : nat) (l : list A) :
  Forall P l -> Forall P (slice_last k l).
Proof.
  intros H. rewrite <- (slice_last_is_suffix k l) in H.
  now apply Forall_app in H.
Qed.

(** X21. After any run every entry of the history has the role user or
    assistant and a content without blanks at its ends: what is stored
    is the stripped input and the stripped reply. *)
Theorem stored_entries_are_stripped
    (reachable : bool) (script : list (Stdin * (Payload -> PostResult))) :
  Forall stored_entry (snd (fst (main reachable script))).
Proof.
  unfold main.
  destruct (loop_run_invariant (Forall stored_entry) (Forall_nil _)) with
    (script := script) (history := @nil Message) as [Hend _].
  - intros history text s Hh.
    rewrite update_history_suffix_form. apply Forall_app. split.
    + now apply Forall_slice_last.
    + constructor; [| constructor; [| constructor]].
      * split; [left; reflexivity | apply strip_idempotent].
      * split; [right; reflexivity | apply strip_idempotent].
  - constructor.
  - destruct (loop [] script) as [[events history] control]. exact Hend.
Qed.

(** X22. The conversation the model is asked to continue is well formed
    in every run: the message list the service builds from a request of
    the client, completed by an assistant reply, is a sequence of (user,
    assistant) pairs, 6 at most. *)
Theorem model_input_alternates
    (reachable : bool) (script : list (Stdin * (Payload -> PostResult)))
    (url : string) (payload : Payload) (reply : string)
    (Hsent : In (HttpPost url payload) (fst (fst (main reachable script)))) :
  let messages := Api.build_messages (Api.validate (System.body_of payload)) in
  alternating (messages ++ [{| role := "assistant"; content := reply |}]) = true
  /\ (length messages <= 11)%nat.
Proof.
  intros messages.
  apply events_of_main in Hsent.
  destruct (loop_run_invariant (fun h => alternating h = true) eq_refl
              (fun h text s => update_history_alternating h (strip text) (strip s))
              script [] eq_refl) as [_ Hposts].
  destruct (Hposts url payload Hsent) as (held & text & Halt & _ & _ & _ & _ & _ & ->).
  assert (E : messages = slice_last 10 held ++ [{| role := "user"; content := strip text |}]).
  { unfold messages, Api.build_messages. now rewrite fold_append_copy. }
  rewrite E. split.
  - rewrite <- app_assoc. apply alternating_app.
    + now apply alternating_slice_last_10.
    + reflexivity.
  - rewrite length_app, length_slice_last. cbn [length]. lia.
Qed.

Lemma model_input_alternates_witness :
  let messages :=
    Api.build_messages (Api.validate (System.body_of (build_payload [] "Hello"))) in
  alternating (messages ++ [{| role := "assistant"; content := "ok" |}]) = true
  /\ (length messages <= 11)%nat.
Proof.
  apply (model_input_alternates true
           [(Line " Hello ", System.server Toy.byte_tokenizer Toy.ok_model [])]
           API_URL (build_payload [] "Hello") "ok").
  vm_compute. do 5 right. left. reflexivity.
Defined.

End SessionProperties.

Section MiddlewareProperties.

(** X3. The middleware is transparent for a handler that returns: the
    response goes through unchanged, the handler runs once, and the log
    gains the record of the request before the handler's own records and
    the record of the status after them, none of them an ERROR. *)
Theorem middleware_passes_response_through
    (request : Api.Request) (call_next : Api.Request -> Api.M Api.Exn Api.Response)
    (log log1 : Api.Log) (response : Api.Response)
    (Hreturns : call_next request (log ++ [incoming request]) = (inr response, log1)) :
  Api.log_requests request call_next log
  = (inr response,
     log1 ++ [{| Api.level := Api.INFO;
                 Api.msg := [Api.Text "Request completed with status: ";
                             Api.Int (Api.status_code response)] |}])
  /\ errors (snd (Api.log_requests request call_next log)) = errors log1.
Proof.
  rewrite (log_requests_runs_returning_handler_once request call_next log log1 response Hreturns).
  split; [reflexivity |].
  cbn [snd]. rewrite errors_app. cbn. lia.
Qed.

Lemma middleware_passes_response_through_witness :
  Api.log_requests System.post_chat (fun _ => Api.route Api.root) []
  = (inr {| Api.status_code := 200;
            Api.body := JObj [("status", JStr "ok"); ("model", JStr "gemma3-1b-it")] |},
     [incoming System.post_chat;
      {| Api.level := Api.DEBUG; Api.msg := [Api.Text "Root endpoint called"] |}]
     ++ [{| Api.level := Api.INFO;
            Api.msg := [Api.Text "Request completed with status: "; Api.Int 200] |}])
  /\ errors (snd (Api.log_requests System.post_chat (fun _ => Api.route Api.root) []))
     = errors [incoming System.post_chat;
               {| Api.level := Api.DEBUG; Api.msg := [Api.Text "Root endpoint called"] |}].
Proof.
  exact (middleware_passes_response_through System.post_chat
           (fun _ => Api.route Api.root) [] _ _ eq_refl).
Defined.

End MiddlewareProperties.

Section AttentionMaskInChat.




(** The mask reaches the model as built: a model that answers with its
    mask shows it in the response. *)
Example mask_reaches_the_model :
  fst (Api.chat_body Toy.eos_pad_tokenizer Toy.mask_model Toy.hello [])
  = match Api.decode Toy.byte_tokenizer [1; 1; 1; 1; 1; 1; 1; 1; 1; 1; 1; 0] with
    | inr text => inr (JObj [("response", JStr text)])
    | inl e => inl e
    end.
Proof. reflexivity. Qed.

End AttentionMaskInChat.
